(** * nofx: the invocation client (mcp/client.go), the document store
      (package db), the administrative handlers (api/server.go) and the
      start of the process (main), embedded and verified.

    Go values are modelled as follows.  A [string] is a sequence of bytes, as
    in Go.  An [int] or a [time.Duration] is a [Z]; every counter of the
    embedded code is bounded by the length of a list, so no wrap-around can
    occur.  A [float64] is carried as its IEEE-754 bit pattern: the embedded
    code only copies such values.  A Go map is a [gmap].  A function that
    returns [(T, error)] returns a sum, and one that returns [error] alone
    returns an [option error], [None] being [nil].  Writes to standard output
    and to the log ([fmt.Printf], [log.Printf]) are not modelled. *)

From Stdlib Require Import ZArith String Ascii List DecimalString.
From stdpp Require Import gmap strings list fin_maps.

Open Scope string_scope.
Open Scope list_scope.
Open Scope stdpp_scope.

(** ** Go's [error] values *)

(** An error made by [fmt.Errorf] without [%w] (or [errors.New]) has a text
    only; one made with [%w] also carries the error it wraps. *)
Inductive error : Type :=
| errorString (s : string)
| wrapError (msg : string) (err : error).

Definition Error (e : error) : string :=
  match e with
  | errorString s => s
  | wrapError msg _ => msg
  end.

Definition Unwrap (e : error) : option error :=
  match e with
  | errorString _ => None
  | wrapError _ err => Some err
  end.

(** [fmt.Errorf(prefix + "%w", err)]: the text of [err] is appended to the
    prefix and [err] is kept as the wrapped cause. *)
Definition Errorf_w (prefix : string) (err : error) : error :=
  wrapError (prefix +:+ Error err) err.

(** The verb [%d] applied to an [int]. *)
Definition itoa (n : Z) : string := NilZero.string_of_int (Z.to_int n).

(** [strings.Contains]: does [substr] occur in [s]? *)
Fixpoint Contains (s substr : string) : bool :=
  if String.prefix substr s then true
  else match s with
       | EmptyString => false
       | String _ s' => Contains s' substr
       end.

(** ** Package mcp *)

Module mcp.

Definition Provider := string.
Definition ProviderDeepSeek : Provider := "deepseek".
Definition ProviderQwen : Provider := "qwen".
Definition ProviderCustom : Provider := "custom".

(** [time.Second], in nanoseconds. *)
Definition Second : Z := 1000000000.

Record Config : Type := {
  Provider_ : Provider;
  APIKey : string;
  SecretKey : string;
  BaseURL : string;
  Model : string;
  Timeout : Z
}.

(** The initial value of the package variable [defaultConfig]. *)
Definition initialConfig : Config :=
  {| Provider_ := ProviderDeepSeek; APIKey := ""; SecretKey := "";
     BaseURL := "https://api.deepseek.com/v1"; Model := "deepseek-chat";
     Timeout := 120 * Second |}.

(** The request handed to the HTTP client by [callOnce]. *)
Record Request : Type := {
  req_url : string;
  req_authorization : string;
  req_model : string;
  req_messages : list (gmap string string);
  req_temperature : Z;
  req_max_tokens : Z;
  req_timeout : Z
}.

(** The decoded response body, the fields [callOnce] declares. *)
Record Completion : Type := {
  Choices : list string;
  PromptTokens : Z;
  CompletionTokens : Z;
  TotalTokens : Z;
  RespModel : string;
  RespID : string
}.

(** What the libraries and the provider do during one attempt, in the order
    in which [callOnce] consults them.  [Received] carries the status code,
    the body and the result of [json.Unmarshal] on that body. *)
Inductive Outcome : Type :=
| MarshalError (err : error)
| NewRequestError (err : error)
| DoError (err : error)
| ReadAllError (err : error)
| Received (StatusCode : Z) (body : string) (decoded : error + Completion).

(** The state of the package and of its surroundings: the shared default
    configuration, the number of calls of [callOnce] made so far, the
    requests given to the HTTP client, and the durations slept. *)
Record Runtime : Type := {
  defaultConfig : Config;
  attempts : nat;
  sent : list Request;
  slept : list Z
}.

Definition SetDeepSeekAPIKey (apiKey : string) (rt : Runtime) : Runtime :=
  {| defaultConfig :=
       {| Provider_ := ProviderDeepSeek; APIKey := apiKey;
          SecretKey := SecretKey (defaultConfig rt);
          BaseURL := "https://api.deepseek.com/v1"; Model := "deepseek-chat";
          Timeout := Timeout (defaultConfig rt) |};
     attempts := attempts rt; sent := sent rt; slept := slept rt |}.

Definition SetQwenAPIKey (apiKey secretKey : string) (rt : Runtime) : Runtime :=
  {| defaultConfig :=
       {| Provider_ := ProviderQwen; APIKey := apiKey; SecretKey := secretKey;
          BaseURL := "https://dashscope.aliyuncs.com/compatible-mode/v1";
          Model := "qwen-plus"; Timeout := Timeout (defaultConfig rt) |};
     attempts := attempts rt; sent := sent rt; slept := slept rt |}.

Definition SetCustomAPI (apiURL apiKey modelName : string) (rt : Runtime) : Runtime :=
  {| defaultConfig :=
       {| Provider_ := ProviderCustom; APIKey := apiKey;
          SecretKey := SecretKey (defaultConfig rt);
          BaseURL := apiURL; Model := modelName; Timeout := 120 * Second |};
     attempts := attempts rt; sent := sent rt; slept := slept rt |}.

Definition SetConfig (config : Config) (rt : Runtime) : Runtime :=
  let config :=
    if (Timeout config =? 0)%Z
    then {| Provider_ := Provider_ config; APIKey := APIKey config;
            SecretKey := SecretKey config; BaseURL := BaseURL config;
            Model := Model config; Timeout := 30 * Second |}
    else config in
  {| defaultConfig := config;
     attempts := attempts rt; sent := sent rt; slept := slept rt |}.

(** [time.Sleep]. *)
Definition Sleep (d : Z) (rt : Runtime) : Runtime :=
  {| defaultConfig := defaultConfig rt; attempts := attempts rt;
     sent := sent rt; slept := slept rt ++ [d] |}.

Definition message (role content : string) : gmap string string :=
  <["content" := content]> (<["role" := role]> ∅).

Definition buildRequest (cfg : Config) (systemPrompt userPrompt : string) : Request :=
  let messages :=
    (if String.eqb systemPrompt "" then [] else [message "system" systemPrompt])
    ++ [message "user" userPrompt] in
  {| req_url := BaseURL cfg +:+ "/chat/completions";
     (* the three branches of the switch on the provider set the same header *)
     req_authorization := "Bearer " +:+ APIKey cfg;
     req_model := Model cfg;
     req_messages := messages;
     req_temperature := 0x3FE0000000000000; (* 0.5 *)
     req_max_tokens := 2000;
     req_timeout := Timeout cfg |}.

(** The value [callOnce] returns, given what happened during the attempt. *)
Definition response (o : Outcome) : string + error :=
  match o with
  | MarshalError err => inr (Errorf_w "序列化请求失败: " err)
  | NewRequestError err => inr (Errorf_w "创建请求失败: " err)
  | DoError err => inr (Errorf_w "发送请求失败: " err)
  | ReadAllError err => inr (Errorf_w "读取响应失败: " err)
  | Received StatusCode body decoded =>
      if negb (StatusCode =? 200)%Z
      then inr (errorString
                  ("API返回错误 (status " +:+ itoa StatusCode +:+ "): " +:+ body))
      else match decoded with
           | inl err => inr (Errorf_w "解析响应失败: " err)
           | inr result =>
               match Choices result with
               | [] => inr (errorString "API返回空响应")
               | content :: _ => inl content
               end
           end
  end.

(** Is the request handed to the HTTP client during the attempt? *)
Definition reachesTransport (o : Outcome) : bool :=
  match o with
  | MarshalError _ | NewRequestError _ => false
  | _ => true
  end.

Definition retryableErrors : list string :=
  ["EOF"; "timeout"; "connection reset"; "connection refused";
   "temporary failure"; "no such host"].

Definition isRetryableError (err : error) : bool :=
  existsb (Contains (Error err)) retryableErrors.

Definition maxRetries : Z := 3.

Section Invocation.

(** [net n] is what happens during the call of [callOnce] number [n]
    (counted from 0 over the life of the process). *)
Variable net : nat → Outcome.

Definition callOnce (cfg : Config) (systemPrompt userPrompt : string)
    (rt : Runtime) : (string + error) * Runtime :=
  let o := net (attempts rt) in
  (response o,
   {| defaultConfig := defaultConfig rt;
      attempts := S (attempts rt);
      sent := if reachesTransport o
              then sent rt ++ [buildRequest cfg systemPrompt userPrompt]
              else sent rt;
      slept := slept rt |}).

(** The error returned once the loop of [CallWithMessages] is left. *)
Definition exhausted (lastErr : option error) : error :=
  let prefix := "重试" +:+ itoa maxRetries +:+ "次后仍然失败: " in
  match lastErr with
  | Some err => Errorf_w prefix err
  | None => errorString (prefix +:+ "%!w(<nil>)")
  end.

(** The loop [for attempt := 1; attempt <= maxRetries; attempt++] of
    [CallWithMessages]; [remaining] is [maxRetries + 1 - attempt], the number
    of iterations for which the loop condition still holds. *)
Fixpoint attemptLoop (remaining : nat) (attempt : Z) (lastErr : option error)
    (systemPrompt userPrompt : string) (rt : Runtime) : (string + error) * Runtime :=
  match remaining with
  | O => (inr (exhausted lastErr), rt)
  | S remaining' =>
      let '(res, rt) := callOnce (defaultConfig rt) systemPrompt userPrompt rt in
      match res with
      | inl result => (inl result, rt)
      | inr err =>
          if negb (isRetryableError err) then (inr err, rt)
          else
            let rt := if (attempt <? maxRetries)%Z
                      then Sleep (attempt * 2 * Second) rt else rt in
            attemptLoop remaining' (attempt + 1) (Some err)
                        systemPrompt userPrompt rt
      end
  end.

Definition CallWithMessages (systemPrompt userPrompt : string) (rt : Runtime)
    : (string + error) * Runtime :=
  if String.eqb (APIKey (defaultConfig rt)) ""
  then (inr (errorString
               "AI API密钥未设置，请先调用 SetDeepSeekAPIKey() 或 SetQwenAPIKey()"),
        rt)
  else attemptLoop (Z.to_nat maxRetries) 1 None systemPrompt userPrompt rt.

Definition CallWithMessagesWithConfig (cfg : Config)
    (systemPrompt userPrompt : string) (rt : Runtime) : (string + error) * Runtime :=
  if String.eqb (APIKey cfg) ""
  then (inr (errorString "AI API密钥未设置"), rt)
  else callOnce cfg systemPrompt userPrompt rt.

End Invocation.

End mcp.

(** A [float64], as its IEEE-754 binary64 bit pattern. *)
Definition float64 := Z.

(** ** Package config

    The declarations of this package are not part of the sources at hand; the
    records below have the fields that [db.ToConfig], [main] and
    [handleAdminReload] read and write. *)

Module config.

Record TraderConfig : Type := {
  ID : string;
  Name : string;
  AIModel : string;
  Exchange : string;
  BinanceAPIKey : string;
  BinanceSecretKey : string;
  BinanceTestnet : bool;
  HyperliquidPrivateKey : string;
  HyperliquidTestnet : bool;
  AsterUser : string;
  AsterSigner : string;
  AsterPrivateKey : string;
  QwenKey : string;
  DeepSeekKey : string;
  CustomAPIURL : string;
  CustomAPIKey : string;
  CustomModelName : string;
  InitialBalance : float64;
  ScanIntervalMinutes : Z;
  Enabled : bool
}.

Record LeverageConfig : Type := {
  BTCETHLeverage : Z;
  AltcoinLeverage : Z
}.

Record Config : Type := {
  Traders : list TraderConfig;
  UseDefaultCoins : bool;
  CoinPoolAPIURL : string;
  OITopAPIURL : string;
  APIServerPort : Z;
  MaxDailyLoss : float64;
  MaxDrawdown : float64;
  StopTradingMinutes : Z;
  Leverage : LeverageConfig
}.

End config.

(** ** Package db *)

Module db.

Record TraderDoc : Type := {
  ObjectID : string;
  TraderID : string;
  Name : string;
  AIModel : string;
  Exchange : string;
  BinanceAPIKey : string;
  BinanceSecretKey : string;
  BinanceTestnet : bool;
  HyperliquidPrivate : string;
  HyperliquidTestnet : bool;
  AsterUser : string;
  AsterSigner : string;
  AsterPrivateKey : string;
  QwenKey : string;
  DeepSeekKey : string;
  CustomAPIURL : string;
  CustomAPIKey : string;
  CustomModelName : string;
  InitialBalance : float64;
  ScanIntervalMin : Z;
  Enabled : bool;
  CreatedAt : Z;
  UpdatedAt : Z
}.

Definition ToConfig (td : TraderDoc) : config.TraderConfig :=
  {| config.ID := TraderID td;
     config.Name := Name td;
     config.AIModel := AIModel td;
     config.Exchange := Exchange td;
     config.BinanceAPIKey := BinanceAPIKey td;
     config.BinanceSecretKey := BinanceSecretKey td;
     config.BinanceTestnet := BinanceTestnet td;
     config.HyperliquidPrivateKey := HyperliquidPrivate td;
     config.HyperliquidTestnet := HyperliquidTestnet td;
     config.AsterUser := AsterUser td;
     config.AsterSigner := AsterSigner td;
     config.AsterPrivateKey := AsterPrivateKey td;
     config.QwenKey := QwenKey td;
     config.DeepSeekKey := DeepSeekKey td;
     config.CustomAPIURL := CustomAPIURL td;
     config.CustomAPIKey := CustomAPIKey td;
     config.CustomModelName := CustomModelName td;
     config.InitialBalance := InitialBalance td;
     config.ScanIntervalMinutes := ScanIntervalMin td;
     config.Enabled := Enabled td |}.

(** What [ListTraders] returns: the documents read and the error, if any.
    The cursor loop ends with [return list, cur.Err()], so a list that was
    read in part can come together with an error. *)
Definition Listing : Type := list TraderDoc * option error.

(** The zero value of [primitive.ObjectID]. *)
Definition NilObjectID : string := "".

(** [FromConfig]; [now] is what the one call of [time.Now] returns. *)
Definition FromConfig (now : Z) (tc : config.TraderConfig) : TraderDoc :=
  {| ObjectID := NilObjectID;
     TraderID := config.ID tc;
     Name := config.Name tc;
     AIModel := config.AIModel tc;
     Exchange := config.Exchange tc;
     BinanceAPIKey := config.BinanceAPIKey tc;
     BinanceSecretKey := config.BinanceSecretKey tc;
     BinanceTestnet := config.BinanceTestnet tc;
     HyperliquidPrivate := config.HyperliquidPrivateKey tc;
     HyperliquidTestnet := config.HyperliquidTestnet tc;
     AsterUser := config.AsterUser tc;
     AsterSigner := config.AsterSigner tc;
     AsterPrivateKey := config.AsterPrivateKey tc;
     QwenKey := config.QwenKey tc;
     DeepSeekKey := config.DeepSeekKey tc;
     CustomAPIURL := config.CustomAPIURL tc;
     CustomAPIKey := config.CustomAPIKey tc;
     CustomModelName := config.CustomModelName tc;
     InitialBalance := config.InitialBalance tc;
     ScanIntervalMin := config.ScanIntervalMinutes tc;
     Enabled := config.Enabled tc;
     CreatedAt := now;
     UpdatedAt := now |}.

(** *** The connection (db/mongo.go) *)

(** A connected client, known by the URI it was made for. *)
Record Client : Type := { clientURI : string }.

(** What the driver does when asked for a client for a URI: [mongo.NewClient]
    fails, or [cli.Connect] fails, or the client is connected. *)
Inductive Dial : Type :=
| NewClientError (err : error)
| ConnectError (err : error)
| Connected.

(** [Connect], given the value of the variable MONGO_URI of the environment,
    the behaviour of the driver, and the package variable [client]. *)
Definition Connect (mongoURI : string) (dial : string → Dial)
    (client : option Client) : (Client + error) * option Client :=
  match client with
  | Some cli => (inl cli, client)
  | None =>
      let uri := if String.eqb mongoURI "" then "mongodb://localhost:27017"
                 else mongoURI in
      match dial uri with
      | NewClientError err => (inr err, None)
      | ConnectError err => (inr err, None)
      | Connected =>
          let cli := {| clientURI := uri |} in
          (inl cli, Some cli)
      end
  end.

(** *** The collection of traders

    The collection is a list of documents in their natural order.  The
    driver's [UpdateOne] with a filter on [trader_id] and the upsert option
    changes the first document that matches, or inserts one when none
    does; [DeleteOne] deletes the first document that matches.  An
    operation that returns an error is taken to have written nothing. *)

(** The [$set] document of [UpsertTrader] applied to a stored document:
    every field but [_id] and [created_at] is overwritten. *)
Definition applySet (td stored : TraderDoc) : TraderDoc :=
  {| ObjectID := ObjectID stored;
     TraderID := TraderID td;
     Name := Name td;
     AIModel := AIModel td;
     Exchange := Exchange td;
     BinanceAPIKey := BinanceAPIKey td;
     BinanceSecretKey := BinanceSecretKey td;
     BinanceTestnet := BinanceTestnet td;
     HyperliquidPrivate := HyperliquidPrivate td;
     HyperliquidTestnet := HyperliquidTestnet td;
     AsterUser := AsterUser td;
     AsterSigner := AsterSigner td;
     AsterPrivateKey := AsterPrivateKey td;
     QwenKey := QwenKey td;
     DeepSeekKey := DeepSeekKey td;
     CustomAPIURL := CustomAPIURL td;
     CustomAPIKey := CustomAPIKey td;
     CustomModelName := CustomModelName td;
     InitialBalance := InitialBalance td;
     ScanIntervalMin := ScanIntervalMin td;
     Enabled := Enabled td;
     CreatedAt := CreatedAt stored;
     UpdatedAt := UpdatedAt td |}.

(** The document inserted when no document matches: the [$set] fields, the
    [created_at] of [$setOnInsert], and the [_id] the store gives it. *)
Definition insertedDoc (oid : string) (createdAt : Z) (td : TraderDoc) : TraderDoc :=
  {| ObjectID := oid;
     TraderID := TraderID td;
     Name := Name td;
     AIModel := AIModel td;
     Exchange := Exchange td;
     BinanceAPIKey := BinanceAPIKey td;
     BinanceSecretKey := BinanceSecretKey td;
     BinanceTestnet := BinanceTestnet td;
     HyperliquidPrivate := HyperliquidPrivate td;
     HyperliquidTestnet := HyperliquidTestnet td;
     AsterUser := AsterUser td;
     AsterSigner := AsterSigner td;
     AsterPrivateKey := AsterPrivateKey td;
     QwenKey := QwenKey td;
     DeepSeekKey := DeepSeekKey td;
     CustomAPIURL := CustomAPIURL td;
     CustomAPIKey := CustomAPIKey td;
     CustomModelName := CustomModelName td;
     InitialBalance := InitialBalance td;
     ScanIntervalMin := ScanIntervalMin td;
     Enabled := Enabled td;
     CreatedAt := createdAt;
     UpdatedAt := UpdatedAt td |}.

(** The first document of the collection with the given [trader_id]. *)
Definition findTrader (traderID : string) (coll : list TraderDoc) : option TraderDoc :=
  List.find (λ d, String.eqb (TraderID d) traderID) coll.

Fixpoint updateOne (f : TraderDoc → TraderDoc) (traderID : string)
    (coll : list TraderDoc) : option (list TraderDoc) :=
  match coll with
  | [] => None
  | d :: rest =>
      if String.eqb (TraderID d) traderID then Some (f d :: rest)
      else match updateOne f traderID rest with
           | Some rest' => Some (d :: rest')
           | None => None
           end
  end.

Fixpoint deleteOne (traderID : string) (coll : list TraderDoc) : list TraderDoc :=
  match coll with
  | [] => []
  | d :: rest =>
      if String.eqb (TraderID d) traderID then rest
      else d :: deleteOne traderID rest
  end.

(** [td.UpdatedAt = time.Now()], the first step of [UpsertTrader]. *)
Definition touch (updatedAt : Z) (td : TraderDoc) : TraderDoc :=
  {| ObjectID := ObjectID td; TraderID := TraderID td; Name := Name td;
     AIModel := AIModel td; Exchange := Exchange td;
     BinanceAPIKey := BinanceAPIKey td;
     BinanceSecretKey := BinanceSecretKey td;
     BinanceTestnet := BinanceTestnet td;
     HyperliquidPrivate := HyperliquidPrivate td;
     HyperliquidTestnet := HyperliquidTestnet td;
     AsterUser := AsterUser td; AsterSigner := AsterSigner td;
     AsterPrivateKey := AsterPrivateKey td; QwenKey := QwenKey td;
     DeepSeekKey := DeepSeekKey td; CustomAPIURL := CustomAPIURL td;
     CustomAPIKey := CustomAPIKey td;
     CustomModelName := CustomModelName td;
     InitialBalance := InitialBalance td;
     ScanIntervalMin := ScanIntervalMin td; Enabled := Enabled td;
     CreatedAt := CreatedAt td; UpdatedAt := updatedAt |}.

(** [UpsertTrader]; [conn] is the error of [Connect] and [op] that of
    [UpdateOne], [updatedAt] and [createdAt] are what the two calls of
    [time.Now] return, [oid] is the [_id] the store would give a new
    document. *)
Definition UpsertTrader (conn op : option error) (updatedAt createdAt : Z)
    (oid : string) (td : TraderDoc) (coll : list TraderDoc)
    : list TraderDoc * option error :=
  match conn with
  | Some err => (coll, Some err)
  | None =>
      let td := touch updatedAt td in
      match op with
      | Some err => (coll, Some err)
      | None =>
          match updateOne (applySet td) (TraderID td) coll with
          | Some coll' => (coll', None)
          | None => (coll ++ [insertedDoc oid createdAt td], None)
          end
      end
  end.

(** [DeleteTrader]; [conn] is the error of [Connect] and [op] that of
    [DeleteOne]. *)
Definition DeleteTrader (conn op : option error) (traderID : string)
    (coll : list TraderDoc) : list TraderDoc * option error :=
  match conn with
  | Some err => (coll, Some err)
  | None =>
      match op with
      | Some err => (coll, Some err)
      | None => (deleteOne traderID coll, None)
      end
  end.

(** What can go wrong while [ListTraders] reads the collection: nothing;
    [Connect] or [Find] fails; the document of index [n] cannot be decoded;
    the cursor breaks after [n] documents. *)
Inductive ReadFault : Type :=
| NoFault
| OpenFault (err : error)
| DecodeFault (n : nat) (err : error)
| CursorFault (n : nat) (err : error).

Definition ListTraders (fault : ReadFault) (coll : list TraderDoc) : Listing :=
  match fault with
  | NoFault => (coll, None)
  | OpenFault err => ([], Some err)
  | DecodeFault n err =>
      if (n <? length coll)%nat then ([], Some err) else (coll, None)
  | CursorFault n err =>
      if (n <? length coll)%nat then (take n coll, Some err) else (coll, None)
  end.

End db.

(** ** Package manager *)

Module manager.

(** Modelled from the spec: the package [nofx/manager] (the type
    [TraderManager] and its methods [GetAllTraders], [GetTrader],
    [AddTrader], [RemoveTrader] and [SetTradingEnabled], and the trader's
    [GetID] and [Run]) is not part of the sources at hand.  The spec
    describes it as the fleet registry: a collection of worker handles keyed
    by identifier, each handle holding its configuration, a running state
    and a trading-enabled flag that is flipped in place. *)
Inductive TaskState : Type := Created | Running.

Record AutoTrader : Type := {
  traderConfig : config.TraderConfig;
  taskState : TaskState;
  tradingEnabled : bool
}.

Abbreviation TraderManager := (gmap string AutoTrader).

(** An entry of the registry: the identifier and the handle it is bound to. *)
Definition Trader : Type := string * AutoTrader.

Definition GetID (t : Trader) : string := t.1.

Definition NewTraderManager : TraderManager := ∅.

(** The two errors of registry misuse, under the names the spec gives them. *)
Definition DuplicateIdentifier : error := errorString "DuplicateIdentifier".
Definition NotFound : error := errorString "NotFound".

(** [List]: a snapshot of the handles.  Go gives no order on the elements of
    a map, the model takes the order of [map_to_list]. *)
Definition GetAllTraders (tm : TraderManager) : list Trader := map_to_list tm.

(** [Get]: the handle, or [NotFound]. *)
Definition GetTrader (id : string) (tm : TraderManager) : Trader + error :=
  match tm !! id with
  | Some t => inl (id, t)
  | None => inr NotFound
  end.

Section Registry.

(** [InvalidConfig]: the check that [Add] makes on the configuration it is
    given.  The spec does not list the required fields, so the check is a
    parameter: [None] accepts the configuration. *)
Variable validate : config.TraderConfig → option error.

(** [Add]: [DuplicateIdentifier] if a handle with that identifier exists,
    [InvalidConfig] if the check fails; otherwise a handle in the [Created]
    state is registered, its flag set as loaded. *)
Definition AddTrader (cfg : config.TraderConfig) (coinPoolURL : string)
    (maxDailyLoss maxDrawdown : float64) (stopTradingMinutes : Z)
    (leverage : config.LeverageConfig) (tm : TraderManager)
    : TraderManager * option error :=
  match tm !! config.ID cfg with
  | Some _ => (tm, Some DuplicateIdentifier)
  | None =>
      match validate cfg with
      | Some err => (tm, Some err)
      | None =>
          (<[config.ID cfg :=
               {| traderConfig := cfg; taskState := Created;
                  tradingEnabled := config.Enabled cfg |}]> tm,
           None)
      end
  end.

End Registry.

(** [Remove]: [NotFound] if absent; otherwise the task is told to stop and
    the handle is evicted. *)
Definition RemoveTrader (id : string) (tm : TraderManager)
    : TraderManager * option error :=
  match tm !! id with
  | None => (tm, Some NotFound)
  | Some _ => (delete id tm, None)
  end.

(** [SetEnabled]: [NotFound] if absent; otherwise the flag is flipped in
    place. *)
Definition SetTradingEnabled (id : string) (enabled : bool) (tm : TraderManager)
    : TraderManager * option error :=
  match tm !! id with
  | None => (tm, Some NotFound)
  | Some t =>
      (<[id := {| traderConfig := traderConfig t; taskState := taskState t;
                  tradingEnabled := enabled |}]> tm,
       None)
  end.

(** [go trader.Run()]: the task of the handle is started. *)
Definition Run (t : Trader) (tm : TraderManager) : TraderManager :=
  alter (λ h, {| traderConfig := traderConfig h; taskState := Running;
                 tradingEnabled := tradingEnabled h |}) (GetID t) tm.

(** Modelled from the spec: [GetTraderIDs], absent like the rest of the
    package, gives the identifiers of the handles; the model takes them in
    the order of [GetAllTraders]. *)
Definition GetTraderIDs (tm : TraderManager) : list string :=
  GetID <$> GetAllTraders tm.

(** Modelled from the spec: the entry ["trading_enabled"] of [GetStatus],
    absent like the rest of the package, is the trading-enabled flag of
    the handle. *)
Definition GetTradingEnabled (t : Trader) : bool := tradingEnabled t.2.

End manager.

(** ** Package api: the reload handler *)

Module api.

Import manager.

(** A call made on the trader manager, with what it returned.  The handler is
    instrumented to return the calls it makes, in order. *)
Inductive Call : Type :=
| CallRemoveTrader (traderID : string) (err : option error)
| CallAddTrader (cfg : config.TraderConfig) (err : option error)
| CallRun (traderID : string)
| CallSetTradingEnabled (id : string) (enabled : bool) (err : option error).

(** How the handler ends: with a JSON answer, or with the run-time panic of
    a nil pointer dereference. *)
Inductive Response : Type :=
| InternalServerError (errorText : string)
| StatusOK (ok : bool) (message : string)
           (added_count removed_count synced_switch : Z)
| NilPointerDereference.

(** [m[k]] on a [map[string]bool]: [false] when the key is absent. *)
Definition index (m : gmap string bool) (k : string) : bool :=
  default false (m !! k).

(** The keys of a map, as a [range] loop visits them.  Go gives no order, the
    model takes the order of [map_to_list]. *)
Definition keys (m : gmap string bool) : list string := (map_to_list m).*1.

Definition currentIDs (currentTraders : list Trader) : gmap string bool :=
  foldl (λ m trader, <[GetID trader := true]> m) ∅ currentTraders.

Definition dbIDs (tradersFromDB : list db.TraderDoc) : gmap string bool :=
  foldl (λ m traderDoc, <[db.TraderID traderDoc := true]> m) ∅ tradersFromDB.

Definition enabledByID (tradersFromDB : list db.TraderDoc) : gmap string bool :=
  foldl (λ m td, <[db.TraderID td := db.Enabled td]> m) ∅ tradersFromDB.

(** The value given to [globalConfig] when there is a current trader. *)
Definition defaultGlobalConfig : config.Config :=
  {| config.Traders := [];
     config.UseDefaultCoins := true;
     config.CoinPoolAPIURL := "";
     config.OITopAPIURL := "";
     config.APIServerPort := 0;
     config.MaxDailyLoss := 0x3FB999999999999A%Z; (* 0.1 *)
     config.MaxDrawdown := 0x3FC999999999999A%Z; (* 0.2 *)
     config.StopTradingMinutes := 60;
     config.Leverage :=
       {| config.BTCETHLeverage := 5; config.AltcoinLeverage := 5 |} |}.

Section Reload.

Variable validate : config.TraderConfig → option error.

(** The loop that removes the traders that are not in the database. *)
Fixpoint removeLoop (traderIDs : list string) (dbTraderIDs : gmap string bool)
    (tm : TraderManager) (removedCount : Z) : TraderManager * list Call * Z :=
  match traderIDs with
  | [] => (tm, [], removedCount)
  | traderID :: rest =>
      if negb (index dbTraderIDs traderID) then
        let '(tm, err) := RemoveTrader traderID tm in
        let '(tm', calls, n) :=
          match err with
          | Some _ => removeLoop rest dbTraderIDs tm removedCount
          | None => removeLoop rest dbTraderIDs tm (removedCount + 1)
          end in
        (tm', CallRemoveTrader traderID err :: calls, n)
      else removeLoop rest dbTraderIDs tm removedCount
  end.

(** The loop that adds the traders that are new in the database.  The count
    is [None] when the loop is left by the panic. *)
Fixpoint addLoop (tradersFromDB : list db.TraderDoc)
    (currentTraders : list Trader) (currentTraderIDs : gmap string bool)
    (tm : TraderManager) (addedCount : Z)
    : TraderManager * list Call * option Z :=
  match tradersFromDB with
  | [] => (tm, [], Some addedCount)
  | traderDoc :: rest =>
      let traderID := db.TraderID traderDoc in
      if negb (index currentTraderIDs traderID) then
        let cfg := db.ToConfig traderDoc in
        let globalConfig : option config.Config :=
          if (0 <? Z.of_nat (length currentTraders))%Z
          then Some defaultGlobalConfig else None in
        match globalConfig with
        | None => (tm, [], None)
        | Some globalConfig =>
            let '(tm, err) :=
              AddTrader validate cfg
                (config.CoinPoolAPIURL globalConfig)
                (config.MaxDailyLoss globalConfig)
                (config.MaxDrawdown globalConfig)
                (config.StopTradingMinutes globalConfig)
                (config.Leverage globalConfig) tm in
            match err with
            | Some _ =>
                let '(tm', calls, n) :=
                  addLoop rest currentTraders currentTraderIDs tm addedCount in
                (tm', CallAddTrader cfg err :: calls, n)
            | None =>
                match GetTrader traderID tm with
                | inl trader =>
                    let tm := Run trader tm in
                    let '(tm', calls, n) :=
                      addLoop rest currentTraders currentTraderIDs tm
                              (addedCount + 1) in
                    (tm', CallAddTrader cfg err :: CallRun traderID :: calls, n)
                | inr _ =>
                    let '(tm', calls, n) :=
                      addLoop rest currentTraders currentTraderIDs tm
                              addedCount in
                    (tm', CallAddTrader cfg err :: calls, n)
                end
            end
        end
      else addLoop rest currentTraders currentTraderIDs tm addedCount
  end.

(** The loop that sets the switch of every trader the manager lists. *)
Fixpoint syncLoop (traders : list Trader) (dbEnabled : gmap string bool)
    (tm : TraderManager) (synced : Z) : TraderManager * list Call * Z :=
  match traders with
  | [] => (tm, [], synced)
  | t :: rest =>
      let id := GetID t in
      match dbEnabled !! id with
      | Some v =>
          let '(tm, err) := SetTradingEnabled id v tm in
          let '(tm', calls, n) := syncLoop rest dbEnabled tm (synced + 1) in
          (tm', CallSetTradingEnabled id v err :: calls, n)
      | None => syncLoop rest dbEnabled tm synced
      end
  end.

(** [handleAdminReload], given what [db.ListTraders] returned and the trader
    manager of the server.  It returns the manager as the handler leaves it,
    the calls made on it, and the answer. *)
Definition handleAdminReload (listing : db.Listing) (tm : TraderManager)
    : TraderManager * list Call * Response :=
  let '(tradersFromDB, err) := listing in
  match err with
  | Some err =>
      (tm, [], InternalServerError ("从数据库加载交易者失败: " +:+ Error err))
  | None =>
      let currentTraders := GetAllTraders tm in
      let currentTraderIDs := currentIDs currentTraders in
      let dbTraderIDs := dbIDs tradersFromDB in
      let '(tm, removeCalls, removedCount) :=
        removeLoop (keys currentTraderIDs) dbTraderIDs tm 0 in
      let '(tm, addCalls, added) :=
        addLoop tradersFromDB currentTraders currentTraderIDs tm 0 in
      match added with
      | None => (tm, removeCalls ++ addCalls, NilPointerDereference)
      | Some addedCount =>
          let dbEnabled := enabledByID tradersFromDB in
          let '(tm, syncCalls, synced) :=
            syncLoop (GetAllTraders tm) dbEnabled tm 0 in
          (tm, removeCalls ++ addCalls ++ syncCalls,
           StatusOK true
             ("重载完成，新增 " +:+ itoa addedCount +:+ " 个，删除 "
              +:+ itoa removedCount +:+ " 个，同步开关 " +:+ itoa synced +:+ " 个")
             addedCount removedCount synced)
      end
  end.

End Reload.

(** The calls of each kind, read off the list of calls of a pass. *)
Definition removeInvoked (calls : list Call) : list string :=
  omap (λ c, match c with CallRemoveTrader id _ => Some id | _ => None end) calls.

Definition removeFailed (calls : list Call) : list string :=
  omap (λ c, match c with CallRemoveTrader id (Some _) => Some id | _ => None end) calls.

Definition addInvoked (calls : list Call) : list string :=
  omap (λ c, match c with CallAddTrader cfg _ => Some (config.ID cfg) | _ => None end) calls.

Definition addFailed (calls : list Call) : list string :=
  omap (λ c, match c with CallAddTrader cfg (Some _) => Some (config.ID cfg) | _ => None end) calls.

Definition addSucceeded (calls : list Call) : list string :=
  omap (λ c, match c with CallAddTrader cfg None => Some (config.ID cfg) | _ => None end) calls.

Definition syncInvoked (calls : list Call) : list (string * bool) :=
  omap (λ c, match c with CallSetTradingEnabled id v _ => Some (id, v) | _ => None end) calls.

(** *** The handlers of the trading switch and of the trader documents *)

(** The answers of these handlers: the status code with the [error] text
    of the body, or one of the two bodies of a success. *)
Inductive Reply : Type :=
| ReplyError (status : Z) (errorText : string)
| ReplyTradingEnabled (trader_id : string) (trading_enabled : bool)
| ReplyOK.

Definition StatusBadRequest : Z := 400.
Definition StatusNotFound : Z := 404.
Definition StatusInternalServerError : Z := 500.

(** [getTraderFromQuery], given the query parameter [trader_id] (empty
    when absent); the trader manager it also returns is the one of the
    server. *)
Definition getTraderFromQuery (trader_id : string) (tm : TraderManager)
    : string + error :=
  if String.eqb trader_id "" then
    match GetTraderIDs tm with
    | [] => inr (errorString "没有可用的trader")
    | id :: _ => inl id
    end
  else inl trader_id.

Definition handleGetTradingEnabled (trader_id : string) (tm : TraderManager)
    : Reply :=
  match getTraderFromQuery trader_id tm with
  | inr err => ReplyError StatusBadRequest (Error err)
  | inl traderID =>
      match GetTrader traderID tm with
      | inr err => ReplyError StatusNotFound (Error err)
      | inl t => ReplyTradingEnabled traderID (GetTradingEnabled t)
      end
  end.

Record setTradingReq : Type := {
  req_TraderID : string;
  req_Enabled : bool
}.

(** [handleSetTradingEnabled]; [body] is the request decoded by
    [ShouldBindJSON], or its error. *)
Definition handleSetTradingEnabled (body : setTradingReq + error)
    (trader_id : string) (tm : TraderManager) : TraderManager * Reply :=
  match body with
  | inr _ => (tm, ReplyError StatusBadRequest "请求参数无效")
  | inl req =>
      let resolved :=
        if String.eqb (req_TraderID req) ""
        then getTraderFromQuery trader_id tm
        else inl (req_TraderID req) in
      match resolved with
      | inr err => (tm, ReplyError StatusBadRequest (Error err))
      | inl traderID =>
          let '(tm, err) := SetTradingEnabled traderID (req_Enabled req) tm in
          match err with
          | Some err => (tm, ReplyError StatusNotFound (Error err))
          | None => (tm, ReplyTradingEnabled traderID (req_Enabled req))
          end
      end
  end.

(** [handleAdminUpsertTrader]; the arguments after [body] are those of
    [db.UpsertTrader]. *)
Definition handleAdminUpsertTrader (body : db.TraderDoc + error)
    (conn op : option error) (updatedAt createdAt : Z) (oid : string)
    (coll : list db.TraderDoc) : list db.TraderDoc * Reply :=
  match body with
  | inr _ => (coll, ReplyError StatusBadRequest "请求参数无效")
  | inl body =>
      if String.eqb (db.TraderID body) ""
      then (coll, ReplyError StatusBadRequest "trader_id 必填")
      else
        let '(coll, err) :=
          db.UpsertTrader conn op updatedAt createdAt oid body coll in
        match err with
        | Some err => (coll, ReplyError StatusInternalServerError (Error err))
        | None => (coll, ReplyOK)
        end
  end.

(** [handleAdminDeleteTrader]; [body] is the [trader_id] of the decoded
    request, or the error of [ShouldBindJSON]. *)
Definition handleAdminDeleteTrader (body : string + error)
    (conn op : option error) (coll : list db.TraderDoc)
    : list db.TraderDoc * Reply :=
  match body with
  | inr _ => (coll, ReplyError StatusBadRequest "trader_id 必填")
  | inl traderID =>
      if String.eqb traderID ""
      then (coll, ReplyError StatusBadRequest "trader_id 必填")
      else
        let '(coll, err) := db.DeleteTrader conn op traderID coll in
        match err with
        | Some err => (coll, ReplyError StatusInternalServerError (Error err))
        | None => (coll, ReplyOK)
        end
  end.

End api.

(** ** Package main: loading the configuration and the traders *)

Module main.

Import manager.

Definition loadTradersFromDB (listing : db.Listing)
    : list config.TraderConfig * option error :=
  let '(list, err) := listing in
  match err with
  | Some err => ([], Some err)
  | None =>
      if (length list =? 0)%nat then ([], None)
      else (db.ToConfig <$> list, None)
  end.

(** The configuration [main] works with, or the message of the [log.Fatalf]
    it dies with.  [file] is what [config.LoadConfig] returns for the
    configuration file. *)
Definition selectConfig (listing : db.Listing) (file : config.Config + error)
    : config.Config + string :=
  let '(tradersFromDB, dbErr) := loadTradersFromDB listing in
  if bool_decide (dbErr = None) && (0 <? length tradersFromDB)%nat then
    match file with
    | inl fileCfg =>
        inl {| config.Traders := tradersFromDB;
               config.UseDefaultCoins := config.UseDefaultCoins fileCfg;
               config.CoinPoolAPIURL := config.CoinPoolAPIURL fileCfg;
               config.OITopAPIURL := config.OITopAPIURL fileCfg;
               config.APIServerPort := config.APIServerPort fileCfg;
               config.MaxDailyLoss := config.MaxDailyLoss fileCfg;
               config.MaxDrawdown := config.MaxDrawdown fileCfg;
               config.StopTradingMinutes := config.StopTradingMinutes fileCfg;
               config.Leverage := config.Leverage fileCfg |}
    | inr _ =>
        inl {| config.Traders := tradersFromDB;
               config.UseDefaultCoins := false;
               config.CoinPoolAPIURL := "";
               config.OITopAPIURL := "";
               config.APIServerPort := 8080;
               config.MaxDailyLoss := 0%Z;
               config.MaxDrawdown := 0%Z;
               config.StopTradingMinutes := 0;
               config.Leverage :=
                 {| config.BTCETHLeverage := 0; config.AltcoinLeverage := 0 |} |}
    end
  else
    match file with
    | inl cfg => inl cfg
    | inr err => inr ("❌ 加载配置失败: " +:+ Error err)
    end.

Section Startup.

Variable validate : config.TraderConfig → option error.

(** The loop of [main] that adds every trader of the configuration; the
    first error is fatal. *)
Fixpoint addTraders (traders : list config.TraderConfig) (cfg : config.Config)
    (tm : TraderManager) : TraderManager + string :=
  match traders with
  | [] => inl tm
  | traderCfg :: rest =>
      let '(tm, err) :=
        AddTrader validate traderCfg
          (config.CoinPoolAPIURL cfg) (config.MaxDailyLoss cfg)
          (config.MaxDrawdown cfg) (config.StopTradingMinutes cfg)
          (config.Leverage cfg) tm in
      match err with
      | Some err => inr ("❌ 初始化trader失败: " +:+ Error err)
      | None => addTraders rest cfg tm
      end
  end.

(** [main] up to the creation of the API server: the configuration and the
    trader manager it builds, or the message it dies with. *)
Definition startup (listing : db.Listing) (file : config.Config + error)
    : (config.Config * TraderManager) + string :=
  match selectConfig listing file with
  | inr err => inr err
  | inl cfg =>
      match addTraders (config.Traders cfg) cfg NewTraderManager with
      | inr err => inr err
      | inl tm => inl (cfg, tm)
      end
  end.

End Startup.

End main.

(** ** Concrete data for the examples *)

Module examples.

Import manager api.

(** A document of the desired-state store with the given identifier, model
    name and switch; the other fields are empty. *)
Definition doc (traderID aiModel : string) (enabled : bool) : db.TraderDoc :=
  {| db.ObjectID := ""; db.TraderID := traderID; db.Name := traderID;
     db.AIModel := aiModel; db.Exchange := "binance";
     db.BinanceAPIKey := ""; db.BinanceSecretKey := "";
     db.BinanceTestnet := true; db.HyperliquidPrivate := "";
     db.HyperliquidTestnet := false; db.AsterUser := ""; db.AsterSigner := "";
     db.AsterPrivateKey := ""; db.QwenKey := ""; db.DeepSeekKey := "";
     db.CustomAPIURL := ""; db.CustomAPIKey := ""; db.CustomModelName := "";
     db.InitialBalance := 0%Z; db.ScanIntervalMin := 3; db.Enabled := enabled;
     db.CreatedAt := 0; db.UpdatedAt := 0 |}.

(** A running handle loaded from such a document. *)
Definition handle (traderID aiModel : string) (enabled : bool) : AutoTrader :=
  {| traderConfig := db.ToConfig (doc traderID aiModel enabled);
     taskState := Running; tradingEnabled := enabled |}.

(** A check that accepts every configuration, and one that rejects a
    configuration without a model name. *)
Definition acceptAll (cfg : config.TraderConfig) : option error := None.

Definition needsModel (cfg : config.TraderConfig) : option error :=
  if String.eqb (config.AIModel cfg) ""
  then Some (errorString "InvalidConfig") else None.

(** The scenario of the spec: D = {A (enabled), B (disabled)}, L = {B, C}. *)
Definition desiredAB : list db.TraderDoc :=
  [doc "A" "deepseek" true; doc "B" "qwen" false].

Definition liveBC : TraderManager :=
  <["B" := handle "B" "deepseek" true]> (<["C" := handle "C" "qwen" true]> ∅).

(** A runtime in which nothing has happened yet, and the same with a
    DeepSeek key set. *)
Definition freshRuntime : mcp.Runtime :=
  {| mcp.defaultConfig := mcp.initialConfig; mcp.attempts := 0;
     mcp.sent := []; mcp.slept := [] |}.

Definition keyedRuntime : mcp.Runtime :=
  mcp.SetDeepSeekAPIKey "sk-demo" freshRuntime.

(** Three behaviours of the provider: the connection always breaks; the key
    is always refused; the answer always has no completion. *)
Definition alwaysEOF (n : nat) : mcp.Outcome :=
  mcp.DoError (errorString "unexpected EOF").

Definition alwaysUnauthorized (n : nat) : mcp.Outcome :=
  mcp.Received 401 "invalid api key" (inl (errorString "not decoded")).

Definition noCompletion : mcp.Completion :=
  {| mcp.Choices := []; mcp.PromptTokens := 0; mcp.CompletionTokens := 0;
     mcp.TotalTokens := 0; mcp.RespModel := "deepseek-chat"; mcp.RespID := "1" |}.

Definition alwaysEmpty (n : nat) : mcp.Outcome :=
  mcp.Received 200 "{}" (inr noCompletion).

(** A provider whose first answer breaks and whose later answers carry one
    completion. *)
Definition oneCompletion : mcp.Completion :=
  {| mcp.Choices := ["hold"]; mcp.PromptTokens := 10; mcp.CompletionTokens := 1;
     mcp.TotalTokens := 11; mcp.RespModel := "deepseek-chat"; mcp.RespID := "2" |}.

Definition flakyOnce (n : nat) : mcp.Outcome :=
  match n with
  | O => mcp.DoError (errorString "read: connection reset by peer")
  | S _ => mcp.Received 200 "{}" (inr oneCompletion)
  end.

(** A gateway that answers 504 with a body that names a timeout. *)
Definition gatewayTimeout (n : nat) : mcp.Outcome :=
  mcp.Received 504 "upstream request timeout" (inl (errorString "not decoded")).

(** The fleet the scenario converges to, a snapshot with a document the
    check of [needsModel] refuses and a repeated identifier, and the trader
    manager [main] builds for the single trader A. *)
Definition liveAB : TraderManager :=
  <["A" := handle "A" "deepseek" true]> (<["B" := handle "B" "qwen" false]> ∅).

Definition desiredWithFaults : list db.TraderDoc :=
  [doc "A" "" true; doc "B" "qwen" true; doc "D" "deepseek" true;
   doc "D" "qwen" false].

Definition startedA : TraderManager :=
  <["A" := {| traderConfig := db.ToConfig (doc "A" "deepseek" true);
              taskState := Created; tradingEnabled := true |}]> ∅.

End examples.

(** * Verification *)

(** ** The invocation client *)

Section InvocationFacts.

Import mcp.

Variable net : nat → Outcome.

Lemma eqb_key_false (s : string) : s ≠ "" → String.eqb s "" = false.
Proof. intros H. by apply String.eqb_neq. Qed.

Lemma callOnce_result cfg sys usr rt :
  (callOnce net cfg sys usr rt).1 = response (net (attempts rt)).
Proof. reflexivity. Qed.

Lemma callOnce_attempts cfg sys usr rt :
  attempts (callOnce net cfg sys usr rt).2 = S (attempts rt).
Proof. reflexivity. Qed.

Lemma callOnce_slept cfg sys usr rt :
  slept (callOnce net cfg sys usr rt).2 = slept rt.
Proof. reflexivity. Qed.

Lemma callOnce_defaultConfig cfg sys usr rt :
  defaultConfig (callOnce net cfg sys usr rt).2 = defaultConfig rt.
Proof. reflexivity. Qed.

(** One iteration that meets a retryable error. *)
Lemma attemptLoop_retry remaining attempt lastErr sys usr rt err :
  response (net (attempts rt)) = inr err →
  isRetryableError err = true →
  attemptLoop net (S remaining) attempt lastErr sys usr rt =
  attemptLoop net remaining (attempt + 1) (Some err) sys usr
    (let rt' := (callOnce net (defaultConfig rt) sys usr rt).2 in
     if (attempt <? maxRetries)%Z then Sleep (attempt * 2 * Second) rt' else rt').
Proof.
  intros Hres Hretry. cbn [attemptLoop]. unfold callOnce. cbn beta iota zeta.
  rewrite Hres. cbn beta iota. rewrite Hretry. reflexivity.
Qed.

Lemma attemptLoop_stop remaining attempt lastErr sys usr rt err :
  response (net (attempts rt)) = inr err →
  isRetryableError err = false →
  attemptLoop net (S remaining) attempt lastErr sys usr rt =
  (inr err, (callOnce net (defaultConfig rt) sys usr rt).2).
Proof.
  intros Hres Hretry. cbn [attemptLoop]. unfold callOnce. cbn beta iota zeta.
  rewrite Hres. cbn beta iota. rewrite Hretry. reflexivity.
Qed.

Lemma isRetryableError_false err :
  Forall (λ indicator, Contains (Error err) indicator = false)
         ["EOF"; "timeout"; "connection reset"; "connection refused";
          "temporary failure"; "no such host"] →
  isRetryableError err = false.
Proof.
  intros H. unfold isRetryableError, retryableErrors.
  apply not_true_is_false. intros Hex. apply existsb_exists in Hex as (x & Hin & Hx).
  rewrite Forall_forall in H. apply list_elem_of_In in Hin. specialize (H x Hin). congruence.
Qed.


(** C5.  When the key is set and each of the three attempts that follow meets
    an error classified as retryable, [CallWithMessages] makes exactly three
    attempts, sleeping 2 s and 4 s between them, and returns an error that
    wraps the error of the third attempt, its text naming the count 3. *)
Theorem CallWithMessages_retry_ceiling sys usr rt :
  APIKey (defaultConfig rt) ≠ "" →
  (∀ k, (k < 3)%nat →
        ∃ err, response (net (attempts rt + k)) = inr err
               ∧ isRetryableError err = true) →
  ∃ last,
    response (net (attempts rt + 2)) = inr last
    ∧ (CallWithMessages net sys usr rt).1
      = inr (wrapError ("重试3次后仍然失败: " +:+ Error last) last)
    ∧ attempts (CallWithMessages net sys usr rt).2 = (attempts rt + 3)%nat
    ∧ slept (CallWithMessages net sys usr rt).2
      = slept rt ++ [2 * Second; 4 * Second]%Z.
Proof.
  intros Hkey Hfail.
  destruct (Hfail 0%nat) as (e1 & H1 & R1); [lia|].
  destruct (Hfail 1%nat) as (e2 & H2 & R2); [lia|].
  destruct (Hfail 2%nat) as (e3 & H3 & R3); [lia|].
  rewrite Nat.add_0_r in H1.
  exists e3. split; [exact H3|].
  unfold CallWithMessages. rewrite (eqb_key_false _ Hkey).
  change (Z.to_nat maxRetries) with 3%nat.
  rewrite (attemptLoop_retry _ _ _ _ _ _ e1 H1 R1).
  cbn zeta. change (1 <? maxRetries)%Z with true. cbn iota.
  rewrite (attemptLoop_retry _ _ _ _ _ _ e2).
  2:{ cbn. rewrite <- H2. f_equal. f_equal. lia. }
  2: exact R2.
  cbn zeta. change (1 + 1 <? maxRetries)%Z with true. cbn iota.
  rewrite (attemptLoop_retry _ _ _ _ _ _ e3).
  2:{ cbn. rewrite <- H3. f_equal. f_equal. lia. }
  2: exact R3.
  cbn zeta. change (1 + 1 + 1 <? maxRetries)%Z with false. cbn iota.
  cbn. repeat split.
  - lia.
  - rewrite <- app_assoc. reflexivity.
Qed.


(** C6.  When the key is set and the first attempt meets an error whose text
    contains none of the six transient indicators, [CallWithMessages] returns
    that very error after one attempt, without sleeping. *)
Theorem CallWithMessages_permanent_error sys usr rt err :
  APIKey (defaultConfig rt) ≠ "" →
  response (net (attempts rt)) = inr err →
  Forall (λ indicator, Contains (Error err) indicator = false)
         ["EOF"; "timeout"; "connection reset"; "connection refused";
          "temporary failure"; "no such host"] →
  (CallWithMessages net sys usr rt).1 = inr err
  ∧ attempts (CallWithMessages net sys usr rt).2 = S (attempts rt)
  ∧ slept (CallWithMessages net sys usr rt).2 = slept rt.
Proof.
  intros Hkey Hres Hperm. apply isRetryableError_false in Hperm.
  unfold CallWithMessages. rewrite (eqb_key_false _ Hkey).
  change (Z.to_nat maxRetries) with 3%nat.
  rewrite (attemptLoop_stop _ _ _ _ _ _ err Hres Hperm).
  repeat split.
Qed.



(** C8.  Without a key in the shared default configuration,
    [CallWithMessages] fails with the configuration error and leaves the
    runtime as it was: no attempt is made, nothing is sent, nothing slept. *)
Theorem CallWithMessages_missing_key sys usr rt :
  APIKey (defaultConfig rt) = "" →
  CallWithMessages net sys usr rt
  = (inr (errorString
            "AI API密钥未设置，请先调用 SetDeepSeekAPIKey() 或 SetQwenAPIKey()"),
     rt)
  ∧ attempts (CallWithMessages net sys usr rt).2 = attempts rt.
Proof.
  intros Hkey. unfold CallWithMessages. rewrite Hkey. split; reflexivity.
Qed.

(** C10.  [CallWithMessagesWithConfig] never sleeps and never retries: with
    an empty key it fails with the configuration error without an attempt;
    otherwise it makes one attempt and returns what that attempt gave, be it
    an error classified as retryable or not. *)
Theorem CallWithMessagesWithConfig_single_attempt cfg sys usr rt :
  slept (CallWithMessagesWithConfig net cfg sys usr rt).2 = slept rt
  ∧ if String.eqb (APIKey cfg) ""
    then (CallWithMessagesWithConfig net cfg sys usr rt).1
         = inr (errorString "AI API密钥未设置")
         ∧ attempts (CallWithMessagesWithConfig net cfg sys usr rt).2
           = attempts rt
    else (CallWithMessagesWithConfig net cfg sys usr rt).1
         = response (net (attempts rt))
         ∧ attempts (CallWithMessagesWithConfig net cfg sys usr rt).2
           = S (attempts rt).
Proof.
  unfold CallWithMessagesWithConfig.
  destruct (String.eqb (APIKey cfg) ""); repeat split.
Qed.

End InvocationFacts.

(** ** The reload handler *)

Section IndexMaps.

Import api.

Context {A : Type} (key : A → string).

(** A map filled by a loop [m[key x] = value x]. *)
Lemma dom_foldl_insert (value : A → bool) (l : list A) (m : gmap string bool) :
  dom (foldl (λ m x, <[key x := value x]> m) m l)
  = dom m ∪ list_to_set (key <$> l).
Proof.
  revert m. induction l as [|x l IH]; intros m; cbn.
  - set_solver.
  - rewrite IH, dom_insert_L. set_solver.
Qed.

Lemma index_foldl_insert_true (l : list A) (m : gmap string bool) (id : string) :
  index (foldl (λ m x, <[key x := true]> m) m l) id
  = bool_decide (id ∈ key <$> l) || index m id.
Proof.
  revert m. induction l as [|x l IH]; intros m; cbn.
  - rewrite bool_decide_eq_false_2; [done | apply not_elem_of_nil].
  - rewrite IH. unfold index at 1.
    destruct (decide (key x = id)) as [->|Hne].
    + rewrite lookup_insert_eq. cbn.
      rewrite (bool_decide_eq_true_2 (id ∈ id :: _)); [|left].
      by rewrite orb_true_r.
    + rewrite lookup_insert_ne by done. fold (index m id).
      destruct (decide (id ∈ key <$> l)) as [Hin|Hnin].
      * rewrite !bool_decide_eq_true_2; [done | by right | done].
      * rewrite !bool_decide_eq_false_2; [done | | done].
        intros [->|?]%elem_of_cons; done.
Qed.

End IndexMaps.

Section ReloadFacts.

Import manager api.

Lemma index_empty id : index ∅ id = false.
Proof. unfold index. by rewrite lookup_empty. Qed.

Lemma index_dbIDs docs id :
  index (dbIDs docs) id = bool_decide (id ∈ db.TraderID <$> docs).
Proof.
  unfold dbIDs. rewrite (index_foldl_insert_true db.TraderID).
  by rewrite index_empty, orb_false_r.
Qed.

Lemma GetAllTraders_ids (tm : TraderManager) id :
  id ∈ GetID <$> GetAllTraders tm ↔ id ∈ dom tm.
Proof.
  unfold GetAllTraders. rewrite elem_of_dom. split.
  - intros ([k h] & -> & Hin)%list_elem_of_fmap.
    apply elem_of_map_to_list in Hin. by exists h.
  - intros [h Hh]. apply list_elem_of_fmap. exists (id, h). split; [done|].
    by apply elem_of_map_to_list.
Qed.

Lemma index_currentIDs (tm : TraderManager) id :
  index (currentIDs (GetAllTraders tm)) id = bool_decide (id ∈ dom tm).
Proof.
  unfold currentIDs. rewrite (index_foldl_insert_true GetID).
  rewrite index_empty, orb_false_r.
  apply bool_decide_ext, GetAllTraders_ids.
Qed.

Lemma keys_NoDup m : NoDup (keys m).
Proof. apply NoDup_fst_map_to_list. Qed.

Lemma elem_of_keys m id : id ∈ keys m ↔ id ∈ dom m.
Proof.
  unfold keys. rewrite elem_of_dom. split.
  - intros ([k b] & -> & Hin)%list_elem_of_fmap.
    apply elem_of_map_to_list in Hin. by exists b.
  - intros [b Hb]. apply list_elem_of_fmap. exists (id, b). split; [done|].
    by apply elem_of_map_to_list.
Qed.

Lemma elem_of_keys_currentIDs (tm : TraderManager) id :
  id ∈ keys (currentIDs (GetAllTraders tm)) ↔ id ∈ dom tm.
Proof.
  rewrite elem_of_keys. unfold currentIDs.
  rewrite (dom_foldl_insert GetID (λ _, true)).
  rewrite dom_empty_L, (left_id_L ∅ (∪)), elem_of_list_to_set.
  apply GetAllTraders_ids.
Qed.

Lemma enabledByID_is_Some docs id :
  is_Some (enabledByID docs !! id) ↔ id ∈ db.TraderID <$> docs.
Proof.
  rewrite <- elem_of_dom. unfold enabledByID.
  rewrite (dom_foldl_insert db.TraderID db.Enabled).
  rewrite dom_empty_L, (left_id_L ∅ (∪)). apply elem_of_list_to_set.
Qed.


(** *** The removal loop *)

Ltac unfold_calls :=
  unfold removeInvoked, removeFailed, addInvoked, addFailed, addSucceeded,
    syncInvoked in *.

Lemma removeLoop_spec ks dbm (tm : TraderManager) n tm' calls n' :
  removeLoop ks dbm tm n = (tm', calls, n') →
  removeInvoked calls = filter (λ id, index dbm id = false) ks
  ∧ n' = (n + Z.of_nat (length (removeInvoked calls))
          - Z.of_nat (length (removeFailed calls)))%Z
  ∧ addInvoked calls = [] ∧ addFailed calls = [] ∧ addSucceeded calls = []
  ∧ syncInvoked calls = []
  ∧ (∀ id, tm' !! id = if decide (id ∈ removeInvoked calls) then None else tm !! id)
  ∧ (NoDup ks → (∀ id, id ∈ ks → is_Some (tm !! id)) → removeFailed calls = []).
Proof.
  revert tm n tm' calls n'.
  induction ks as [|k ks IH]; intros tm n tm' calls n' Hloop; cbn in Hloop.
  - injection Hloop as <- <- <-. cbn. split_and!; try done. lia.
  - destruct (index dbm k) eqn:Hk; cbn in Hloop.
    + destruct (IH _ _ _ _ _ Hloop) as (Hinv & Hn & Ha & Haf & Has & Hs & Hlk & Hnf).
      rewrite filter_cons_False by congruence.
      split_and!; try done.
      intros Hnd Hin. apply NoDup_cons in Hnd as [_ Hnd].
      apply Hnf; [done|]. intros id Hid. apply Hin. by right.
    + unfold RemoveTrader in Hloop. rewrite filter_cons_True by done.
      destruct (tm !! k) as [h|] eqn:Hlook.
      * destruct (removeLoop ks dbm (delete k tm) (n + 1)) as [[tm1 c1] n1] eqn:Hrec.
        injection Hloop as <- <- <-.
        destruct (IH _ _ _ _ _ Hrec) as (Hinv & Hn & Ha & Haf & Has & Hs & Hlk & Hnf).
        unfold_calls. cbn. split_and!; try done.
        -- by f_equal.
        -- rewrite Hn. lia.
        -- intros id. rewrite Hlk. destruct (decide (id = k)) as [->|Hne].
           ++ rewrite lookup_delete_eq. rewrite (decide_True (P := k ∈ k :: _)) by left.
              by destruct (decide _).
           ++ rewrite lookup_delete_ne by done.
              apply option_eq; intros x. repeat case_decide; set_solver.
        -- intros Hnd Hin. apply NoDup_cons in Hnd as [Hk' Hnd].
           apply Hnf; [done|]. intros id Hid.
           rewrite lookup_delete_ne; [apply Hin; by right|].
           intros ->. done.
      * destruct (removeLoop ks dbm tm n) as [[tm1 c1] n1] eqn:Hrec.
        injection Hloop as <- <- <-.
        destruct (IH _ _ _ _ _ Hrec) as (Hinv & Hn & Ha & Haf & Has & Hs & Hlk & Hnf).
        unfold_calls. cbn. split_and!; try done.
        -- by f_equal.
        -- rewrite Hn. lia.
        -- intros id. rewrite Hlk. destruct (decide (id = k)) as [->|Hne].
           ++ rewrite (decide_True (P := k ∈ k :: _)) by left. rewrite Hlook.
              by destruct (decide _).
           ++ apply option_eq; intros x. repeat case_decide; set_solver.
        -- intros Hnd Hin. destruct (Hin k) as [h Hh]; [left|]. congruence.
Qed.


(** *** The addition loop *)

Variable validate : config.TraderConfig → option error.

Lemma addLoop_frame docs ts cur (tm : TraderManager) n tm' calls r :
  addLoop validate docs ts cur tm n = (tm', calls, r) →
  removeInvoked calls = [] ∧ removeFailed calls = [] ∧ syncInvoked calls = []
  ∧ (∀ id, id ∈ addInvoked calls →
           index cur id = false ∧ id ∈ db.TraderID <$> docs)
  ∧ (∀ id h, tm !! id = Some h → tm' !! id = Some h)
  ∧ dom tm' = dom tm ∪ list_to_set (addSucceeded calls).
Proof.
  revert tm n tm' calls r.
  induction docs as [|d docs IH]; intros tm n tm' calls r Hloop; cbn in Hloop.
  - injection Hloop as <- <- <-. cbn. split_and!; try done.
    + intros id Hid. by apply not_elem_of_nil in Hid.
    + set_solver.
  - destruct (index cur (db.TraderID d)) eqn:Hcur; cbn in Hloop.
    { destruct (IH _ _ _ _ _ Hloop) as (Hr & Hrf & Hs & Hin & Hkeep & Hdom).
      split_and!; try done.
      intros id Hid. destruct (Hin id Hid). split; [done | by right]. }
    destruct (0 <? Z.of_nat (length ts))%Z.
    2:{ injection Hloop as <- <- <-. cbn. split_and!; try done.
        - intros id Hid. by apply not_elem_of_nil in Hid.
        - set_solver. }
    unfold AddTrader in Hloop. cbn in Hloop.
    destruct (tm !! db.TraderID d) as [h0|] eqn:Hlook.
    { destruct (addLoop validate docs ts cur tm n) as [[tm1 c1] r1] eqn:Hrec.
      injection Hloop as <- <- <-.
      destruct (IH _ _ _ _ _ Hrec) as (Hr & Hrf & Hs & Hin & Hkeep & Hdom).
      unfold_calls. cbn. split_and!; try done.
      intros id [->|Hid]%elem_of_cons; [split; [done | left]|].
      destruct (Hin id Hid). split; [done | by right]. }
    destruct (validate (db.ToConfig d)) as [e|] eqn:Hval.
    { destruct (addLoop validate docs ts cur tm n) as [[tm1 c1] r1] eqn:Hrec.
      injection Hloop as <- <- <-.
      destruct (IH _ _ _ _ _ Hrec) as (Hr & Hrf & Hs & Hin & Hkeep & Hdom).
      unfold_calls. cbn. split_and!; try done.
      intros id [->|Hid]%elem_of_cons; [split; [done | left]|].
      destruct (Hin id Hid). split; [done | by right]. }
    unfold GetTrader in Hloop. rewrite lookup_insert_eq in Hloop.
    match type of Hloop with
    | context [addLoop validate docs ts cur ?m ?k] =>
        destruct (addLoop validate docs ts cur m k) as [[tm1 c1] r1] eqn:Hrec
    end.
    injection Hloop as <- <- <-.
    destruct (IH _ _ _ _ _ Hrec) as (Hr & Hrf & Hs & Hin & Hkeep & Hdom).
    unfold_calls. cbn. split_and!; try done.
    + intros id [->|Hid]%elem_of_cons; [split; [done | left]|].
      destruct (Hin id Hid). split; [done | by right].
    + intros id h Hh. apply Hkeep. unfold Run, GetID. cbn.
      assert (id ≠ db.TraderID d) by congruence.
      by rewrite lookup_alter_ne, lookup_insert_ne.
    + rewrite Hdom. unfold Run. rewrite dom_alter_L, dom_insert_L. set_solver.
Qed.

Lemma addLoop_spec docs ts cur (tm : TraderManager) n tm' calls n' :
  addLoop validate docs ts cur tm n = (tm', calls, Some n') →
  addInvoked calls
  = filter (λ id, index cur id = false) (db.TraderID <$> docs)
  ∧ n' = (n + Z.of_nat (length (addInvoked calls))
          - Z.of_nat (length (addFailed calls)))%Z.
Proof.
  revert tm n tm' calls n'.
  induction docs as [|d docs IH]; intros tm n tm' calls n' Hloop; cbn in Hloop.
  - injection Hloop as <- <- <-. cbn. split; [done | lia].
  - destruct (index cur (db.TraderID d)) eqn:Hcur; cbn in Hloop.
    { rewrite fmap_cons, filter_cons_False by congruence. by eapply IH. }
    rewrite fmap_cons, filter_cons_True by done.
    destruct (0 <? Z.of_nat (length ts))%Z; [|done].
    unfold AddTrader in Hloop. cbn in Hloop.
    destruct (tm !! db.TraderID d) as [h0|] eqn:Hlook.
    { destruct (addLoop validate docs ts cur tm n) as [[tm1 c1] r1] eqn:Hrec.
      injection Hloop as <- <- ->.
      destruct (IH _ _ _ _ _ Hrec) as (Hinv & Hn).
      unfold_calls. cbn. split; [by f_equal | lia]. }
    destruct (validate (db.ToConfig d)) as [e|] eqn:Hval.
    { destruct (addLoop validate docs ts cur tm n) as [[tm1 c1] r1] eqn:Hrec.
      injection Hloop as <- <- ->.
      destruct (IH _ _ _ _ _ Hrec) as (Hinv & Hn).
      unfold_calls. cbn. split; [by f_equal | lia]. }
    unfold GetTrader in Hloop. rewrite lookup_insert_eq in Hloop.
    match type of Hloop with
    | context [addLoop validate docs ts cur ?m ?k] =>
        destruct (addLoop validate docs ts cur m k) as [[tm1 c1] r1] eqn:Hrec
    end.
    injection Hloop as <- <- ->.
    destruct (IH _ _ _ _ _ Hrec) as (Hinv & Hn).
    unfold_calls. cbn. split; [by f_equal | lia].
Qed.

(** Every add is either counted as succeeded or as failed. *)
Lemma addInvoked_split calls :
  addInvoked calls ≡ₚ addSucceeded calls ++ addFailed calls.
Proof.
  induction calls as [|c calls IH]; [done|].
  destruct c as [| cfg [e|] | |]; unfold_calls; cbn; try done.
  - rewrite IH. by rewrite Permutation_middle.
  - by f_equiv.
Qed.


(** *** The synchronisation loop *)

Lemma SetTradingEnabled_lookup id v (tm : TraderManager) id' :
  (SetTradingEnabled id v tm).1 !! id'
  = if decide (id' = id)
    then (λ t, {| traderConfig := traderConfig t; taskState := taskState t;
                  tradingEnabled := v |}) <$> tm !! id
    else tm !! id'.
Proof.
  unfold SetTradingEnabled. destruct (tm !! id) as [t|] eqn:Hlook; cbn.
  - case_decide as Hid; [subst; by rewrite lookup_insert_eq|].
    by rewrite lookup_insert_ne.
  - case_decide as Hid; [by subst | done].
Qed.

Lemma syncLoop_spec ts en (tm : TraderManager) n tm' calls n' :
  syncLoop ts en tm n = (tm', calls, n') →
  syncInvoked calls = omap (λ t, (λ v, (GetID t, v)) <$> en !! GetID t) ts
  ∧ n' = (n + Z.of_nat (length (syncInvoked calls)))%Z
  ∧ removeInvoked calls = [] ∧ removeFailed calls = []
  ∧ addInvoked calls = [] ∧ addFailed calls = [] ∧ addSucceeded calls = []
  ∧ (∀ id, traderConfig <$> tm' !! id = traderConfig <$> tm !! id)
  ∧ (∀ id, taskState <$> tm' !! id = taskState <$> tm !! id)
  ∧ (∀ id, id ∉ GetID <$> ts ∨ en !! id = None → tm' !! id = tm !! id)
  ∧ (∀ id v, id ∈ GetID <$> ts → en !! id = Some v →
             tradingEnabled <$> tm' !! id = (λ _, v) <$> tm !! id).
Proof.
  revert tm n tm' calls n'.
  induction ts as [|t ts IH]; intros tm n tm' calls n' Hloop; cbn in Hloop.
  - injection Hloop as <- <- <-. cbn. split_and!; try done; [lia|].
    intros id v Hid. by apply not_elem_of_nil in Hid.
  - cbn [omap list_omap].
    destruct (en !! GetID t) as [v|] eqn:Hen.
    + destruct (SetTradingEnabled (GetID t) v tm) as [tm0 err] eqn:Hset.
      assert (Hlk : ∀ id', tm0 !! id' = (SetTradingEnabled (GetID t) v tm).1 !! id')
        by (by rewrite Hset).
      setoid_rewrite SetTradingEnabled_lookup in Hlk.
      destruct (syncLoop ts en tm0 (n + 1)) as [[tm1 c1] n1] eqn:Hrec.
      injection Hloop as <- <- <-.
      destruct (IH _ _ _ _ _ Hrec)
        as (Hinv & Hn & Hr & Hrf & Ha & Haf & Has & Hcfg & Hst & Hframe & Hflag).
      unfold_calls. cbn. split_and!; try done.
      * by f_equal.
      * lia.
      * intros id. rewrite Hcfg, Hlk. case_decide; [subst|done].
        by destruct (tm !! GetID t).
      * intros id. rewrite Hst, Hlk. case_decide; [subst|done].
        by destruct (tm !! GetID t).
      * intros id Hid. rewrite Hframe.
        -- rewrite Hlk. case_decide; [subst|done].
           destruct Hid as [Hid|Hid]; [|congruence].
           exfalso. apply Hid. left.
        -- destruct Hid as [Hid|Hid]; [left|by right].
           intros ?. apply Hid. by right.
      * intros id w Hid Hw.
        destruct (decide (id ∈ GetID <$> ts)) as [Hin|Hnin].
        -- rewrite (Hflag id w Hin Hw), Hlk. case_decide; [subst|done].
           by destruct (tm !! GetID t).
        -- apply elem_of_cons in Hid as [->|Hid]; [|done].
           rewrite Hframe by (by left). rewrite Hlk, decide_True by done.
           assert (w = v) as -> by congruence.
           by destruct (tm !! GetID t).
    + destruct (IH _ _ _ _ _ Hloop)
        as (Hinv & Hn & Hr & Hrf & Ha & Haf & Has & Hcfg & Hst & Hframe & Hflag).
      split_and!; try done.
      * intros id Hid. apply Hframe.
        destruct Hid as [Hid|Hid]; [left|by right].
        intros ?. apply Hid. by right.
      * intros id w Hid Hw. apply Hflag; [|done].
        apply elem_of_cons in Hid as [->|Hid]; [congruence|done].
Qed.


(** *** The handler *)

Lemma handleAdminReload_inv docs (tm : TraderManager) tm' calls resp :
  handleAdminReload validate (docs, None) tm = (tm', calls, resp) →
  ∃ tm1 rc r tm2 ac a,
    removeLoop (keys (currentIDs (GetAllTraders tm))) (dbIDs docs) tm 0
    = (tm1, rc, r)
    ∧ addLoop validate docs (GetAllTraders tm) (currentIDs (GetAllTraders tm)) tm1 0
      = (tm2, ac, a)
    ∧ match a with
      | None => tm' = tm2 ∧ calls = rc ++ ac ∧ resp = NilPointerDereference
      | Some addedCount =>
          ∃ sc y msg,
            syncLoop (GetAllTraders tm2) (enabledByID docs) tm2 0 = (tm', sc, y)
            ∧ calls = rc ++ ac ++ sc
            ∧ resp = StatusOK true msg addedCount r y
      end.
Proof.
  unfold handleAdminReload. intros H.
  destruct (removeLoop _ _ tm 0) as [[tm1 rc] r] eqn:Hrem.
  destruct (addLoop validate docs _ _ tm1 0) as [[tm2 ac] [a|]] eqn:Hadd.
  - destruct (syncLoop _ _ tm2 0) as [[tm3 sc] y] eqn:Hsync.
    injection H as <- <- <-. exists tm1, rc, r, tm2, ac, (Some a).
    split_and!; try done. by eexists _, _, _.
  - injection H as <- <- <-. by exists tm1, rc, r, tm2, ac, None.
Qed.

(** The removals of a pass, against the live and the desired identifiers. *)
Lemma removeLoop_pass docs (tm : TraderManager) tm1 rc r :
  removeLoop (keys (currentIDs (GetAllTraders tm))) (dbIDs docs) tm 0
  = (tm1, rc, r) →
  NoDup (removeInvoked rc)
  ∧ (∀ id, id ∈ removeInvoked rc ↔ id ∈ dom tm ∧ id ∉ db.TraderID <$> docs)
  ∧ removeFailed rc = []
  ∧ r = Z.of_nat (length (removeInvoked rc))
  ∧ addInvoked rc = [] ∧ addFailed rc = [] ∧ addSucceeded rc = []
  ∧ syncInvoked rc = []
  ∧ (∀ id, tm1 !! id
           = if decide (id ∈ db.TraderID <$> docs) then tm !! id else None).
Proof.
  intros Hrem.
  destruct (removeLoop_spec _ _ _ _ _ _ _ Hrem)
    as (Hinv & Hn & Ha & Haf & Has & Hs & Hlk & Hnf).
  assert (Hmem : ∀ id, id ∈ removeInvoked rc
                       ↔ id ∈ dom tm ∧ id ∉ db.TraderID <$> docs).
  { intros id. rewrite Hinv, list_elem_of_filter, index_dbIDs.
    rewrite elem_of_keys_currentIDs, bool_decide_eq_false. tauto. }
  assert (Hnone : removeFailed rc = []).
  { apply Hnf; [apply keys_NoDup|]. intros id Hid.
    by apply elem_of_dom, elem_of_keys_currentIDs. }
  split_and!; try done.
  - rewrite Hinv. apply NoDup_filter, keys_NoDup.
  - rewrite Hn, Hnone. cbn. lia.
  - intros id. rewrite Hlk.
    destruct (decide (id ∈ removeInvoked rc)) as [Hin|Hnin].
    + apply Hmem in Hin as [_ Hin]. by rewrite decide_False.
    + case_decide as HD; [done|].
      destruct (tm !! id) as [h|] eqn:Hlook; [|done].
      exfalso. apply Hnin, Hmem. split; [|done]. by apply elem_of_dom.
Qed.

Lemma addLoop_pass docs (tm tm1 : TraderManager) tm2 ac a :
  addLoop validate docs (GetAllTraders tm) (currentIDs (GetAllTraders tm)) tm1 0
  = (tm2, ac, a) →
  removeInvoked ac = [] ∧ removeFailed ac = [] ∧ syncInvoked ac = []
  ∧ (∀ id, id ∈ addInvoked ac → (id ∉ dom tm) ∧ id ∈ (db.TraderID <$> docs))
  ∧ (∀ id h, tm1 !! id = Some h → tm2 !! id = Some h)
  ∧ dom tm2 = dom tm1 ∪ list_to_set (addSucceeded ac).
Proof.
  intros Hadd.
  destruct (addLoop_frame _ _ _ _ _ _ _ _ Hadd) as (Hr & Hrf & Hs & Hin & Hkeep & Hdom).
  split_and!; try done.
  intros id Hid. destruct (Hin id Hid) as [Hcur HD]. split; [|done].
  rewrite index_currentIDs in Hcur. by apply bool_decide_eq_false in Hcur.
Qed.

Lemma addSucceeded_invoked calls id :
  id ∈ addSucceeded calls → id ∈ addInvoked calls.
Proof. rewrite addInvoked_split. set_solver. Qed.

Lemma addFailed_invoked calls id :
  id ∈ addFailed calls → id ∈ addInvoked calls.
Proof. rewrite addInvoked_split. set_solver. Qed.

Lemma size_of_NoDup_list (l : list string) (X : gset string) :
  NoDup l → (∀ id, id ∈ l ↔ id ∈ X) → length l = size X.
Proof.
  intros Hnd Hmem. rewrite <- (size_list_to_set (C := gset string) l Hnd).
  f_equal. apply set_eq. intros id. by rewrite elem_of_list_to_set.
Qed.



Lemma removeInvoked_app c1 c2 :
  removeInvoked (c1 ++ c2) = removeInvoked c1 ++ removeInvoked c2.
Proof. apply omap_app. Qed.

Lemma removeFailed_app c1 c2 :
  removeFailed (c1 ++ c2) = removeFailed c1 ++ removeFailed c2.
Proof. apply omap_app. Qed.

Lemma addInvoked_app c1 c2 :
  addInvoked (c1 ++ c2) = addInvoked c1 ++ addInvoked c2.
Proof. apply omap_app. Qed.

Lemma addFailed_app c1 c2 :
  addFailed (c1 ++ c2) = addFailed c1 ++ addFailed c2.
Proof. apply omap_app. Qed.

Lemma addSucceeded_app c1 c2 :
  addSucceeded (c1 ++ c2) = addSucceeded c1 ++ addSucceeded c2.
Proof. apply omap_app. Qed.

Lemma syncInvoked_app c1 c2 :
  syncInvoked (c1 ++ c2) = syncInvoked c1 ++ syncInvoked c2.
Proof. apply omap_app. Qed.

(** C3.  When [db.ListTraders] returns an error, whatever list comes with
    it, the handler answers with the internal server error that carries the
    text of that error, makes no call on the trader manager and leaves it as
    it was. *)
Theorem handleAdminReload_fetch_error docs err (tm : TraderManager) :
  handleAdminReload validate (docs, Some err) tm
  = (tm, [], InternalServerError ("从数据库加载交易者失败: " +:+ Error err)).
Proof. reflexivity. Qed.

(** C2.  After a pass that answers with its counts, over a snapshot whose
    identifiers are pairwise distinct: [RemoveTrader] was called once for
    each identifier of L − D and for no other, [AddTrader] once for each
    identifier of D − L and for no other; the live set is D without the
    identifiers whose add failed, with those whose remove failed; and the
    counts are |D − L| and |L − D|, each less the number of failed calls. *)
Theorem handleAdminReload_set_difference docs (tm : TraderManager)
    tm' calls ok msg added removed synced :
  NoDup (db.TraderID <$> docs) →
  handleAdminReload validate (docs, None) tm
  = (tm', calls, StatusOK ok msg added removed synced) →
  let L : gset string := dom tm in
  let D : gset string := list_to_set (db.TraderID <$> docs) in
  (NoDup (removeInvoked calls) ∧ ∀ id, id ∈ removeInvoked calls ↔ id ∈ L ∖ D)
  ∧ (NoDup (addInvoked calls) ∧ ∀ id, id ∈ addInvoked calls ↔ id ∈ D ∖ L)
  ∧ dom tm' = (D ∖ list_to_set (addFailed calls))
              ∪ list_to_set (removeFailed calls)
  ∧ added = (Z.of_nat (size (D ∖ L)) - Z.of_nat (length (addFailed calls)))%Z
  ∧ removed = (Z.of_nat (size (L ∖ D)) - Z.of_nat (length (removeFailed calls)))%Z.
Proof.
  intros Hnd Hpass L D.
  destruct (handleAdminReload_inv _ _ _ _ _ Hpass)
    as (tm1 & rc & r & tm2 & ac & a & Hrem & Hadd & Hrest).
  destruct a as [a|]; [|by destruct Hrest as (_ & _ & ?)].
  destruct Hrest as (sc & y & msg' & Hsync & -> & Hresp).
  injection Hresp as -> -> <- <- <-.
  destruct (removeLoop_pass _ _ _ _ _ Hrem)
    as (Hrnd & Hrmem & Hrf & Hr & Hra & Hraf & Hras & Hrs & Hlk1).
  destruct (addLoop_pass _ _ _ _ _ _ Hadd) as (Har & Harf & Has & Hain & Hkeep & Hdom2).
  destruct (addLoop_spec _ _ _ _ _ _ _ _ Hadd) as (Hainv & Ha).
  destruct (syncLoop_spec _ _ _ _ _ _ _ Hsync)
    as (Hsinv & Hy & Hsr & Hsrf & Hsa & Hsaf & Hsas & Hcfg & Hst & Hframe & Hflag).
  assert (HaddND : NoDup (addInvoked ac)).
  { rewrite Hainv. by apply NoDup_filter. }
  assert (Haddmem : ∀ id, id ∈ addInvoked ac ↔ id ∈ D ∖ L).
  { intros id. rewrite Hainv, list_elem_of_filter, index_currentIDs.
    rewrite bool_decide_eq_false, elem_of_difference.
    subst D. rewrite elem_of_list_to_set. tauto. }
  assert (Hremmem : ∀ id, id ∈ removeInvoked rc ↔ id ∈ L ∖ D).
  { intros id. rewrite Hrmem, elem_of_difference.
    subst D. by rewrite elem_of_list_to_set. }
  assert (Hdom' : dom tm' = dom tm2).
  { apply set_eq. intros id. rewrite !elem_of_dom.
    rewrite <- !(fmap_is_Some traderConfig). by rewrite Hcfg. }
  assert (Hdom1 : dom tm1 = L ∩ D).
  { apply set_eq. intros id. rewrite elem_of_dom, Hlk1, elem_of_intersection.
    subst D L. rewrite elem_of_list_to_set, elem_of_dom.
    case_decide; [tauto|]. split; [by intros [? ?] | tauto]. }
  rewrite !removeInvoked_app, !removeFailed_app, !addInvoked_app, !addFailed_app.
  rewrite Har, Hsr, Hra, Hsa, Hrf, Harf, Hsrf, Hraf, Hsaf, !app_nil_r.
  cbn [app].
  split_and!; try done.
  - rewrite Hdom', Hdom2, Hdom1. apply set_eq. intros id.
    pose proof (addInvoked_split ac) as Hsplit.
    assert (Hdisj : id ∈ addSucceeded ac → id ∈ addFailed ac → False).
    { rewrite Hsplit in HaddND. apply NoDup_app in HaddND as (_ & Hd & _).
      intros ??. by eapply Hd. }
    pose proof (addSucceeded_invoked ac id) as Hsi.
    pose proof (addFailed_invoked ac id) as Hfi.
    assert (Hcase : id ∈ addInvoked ac → id ∈ addSucceeded ac ∨ id ∈ addFailed ac).
    { rewrite Hsplit. by intros ?%elem_of_app. }
    specialize (Haddmem id).
    clear -Hdisj Hsi Hfi Hcase Haddmem.
    rewrite !elem_of_union, !elem_of_difference, !elem_of_intersection, !elem_of_list_to_set.
    rewrite elem_of_difference in Haddmem. 
    rewrite elem_of_nil. destruct (decide (id ∈ L)); tauto.
  - rewrite Ha. rewrite (size_of_NoDup_list _ (D ∖ L) HaddND Haddmem). lia.
  - rewrite Hr. rewrite (size_of_NoDup_list _ (L ∖ D) Hrnd Hremmem). cbn. lia.
Qed.


Lemma sync_targets (en : gmap string bool) (ts : list Trader) :
  (omap (λ t, (λ v, (GetID t, v)) <$> en !! GetID t) ts).*1
  = filter (λ id, is_Some (en !! id)) (GetID <$> ts).
Proof.
  induction ts as [|t ts IH]; [done|].
  rewrite (fmap_cons GetID). cbn [omap list_omap].
  destruct (en !! GetID t) as [v|] eqn:Hen.
  - rewrite filter_cons_True by (by rewrite Hen).
    cbn [fmap option_fmap option_map]. rewrite fmap_cons. cbn [fst].
    f_equal. exact IH.
  - rewrite filter_cons_False by (rewrite Hen; by intros [? ?]). exact IH.
Qed.

(** C1, as the code has it.  After a pass that answers with its counts,
    [SetTradingEnabled] was called once for each identifier that is both in
    the live set as the pass leaves it, additions included, and in D, and
    for no other; the count of synced switches is the number of those
    identifiers, which are the identifiers of L ∩ D together with the ones
    added in this pass; each call carried the value the snapshot has for
    the identifier, and the flag of the handle holds that value afterwards. *)
Theorem handleAdminReload_sync_after_additions docs (tm : TraderManager)
    tm' calls ok msg added removed synced :
  handleAdminReload validate (docs, None) tm
  = (tm', calls, StatusOK ok msg added removed synced) →
  let L : gset string := dom tm in
  let D : gset string := list_to_set (db.TraderID <$> docs) in
  NoDup (syncInvoked calls).*1
  ∧ (∀ id, id ∈ (syncInvoked calls).*1 ↔ id ∈ dom tm' ∩ D)
  ∧ synced = Z.of_nat (size (dom tm' ∩ D))
  ∧ dom tm' ∩ D = (L ∩ D) ∪ list_to_set (addSucceeded calls)
  ∧ (∀ id v, (id, v) ∈ syncInvoked calls →
             enabledByID docs !! id = Some v
             ∧ tradingEnabled <$> tm' !! id = Some v).
Proof.
  intros Hpass L D.
  destruct (handleAdminReload_inv _ _ _ _ _ Hpass)
    as (tm1 & rc & r & tm2 & ac & a & Hrem & Hadd & Hrest).
  destruct a as [a|]; [|by destruct Hrest as (_ & _ & ?)].
  destruct Hrest as (sc & y & msg' & Hsync & -> & Hresp).
  injection Hresp as -> -> <- <- <-.
  destruct (removeLoop_pass _ _ _ _ _ Hrem)
    as (Hrnd & Hrmem & Hrf & Hr & Hra & Hraf & Hras & Hrs & Hlk1).
  destruct (addLoop_pass _ _ _ _ _ _ Hadd) as (Har & Harf & Has & Hain & Hkeep & Hdom2).
  destruct (syncLoop_spec _ _ _ _ _ _ _ Hsync)
    as (Hsinv & Hy & Hsr & Hsrf & Hsa & Hsaf & Hsas & Hcfg & Hst & Hframe & Hflag).
  assert (Hdom' : dom tm' = dom tm2).
  { apply set_eq. intros id. rewrite !elem_of_dom.
    rewrite <- !(fmap_is_Some traderConfig). by rewrite Hcfg. }
  assert (Hdom1 : dom tm1 = L ∩ D).
  { apply set_eq. intros id. rewrite elem_of_dom, Hlk1, elem_of_intersection.
    subst D L. rewrite elem_of_list_to_set, elem_of_dom.
    case_decide; [tauto|]. split; [by intros [? ?] | tauto]. }
  assert (Hsub : ∀ id, id ∈ addSucceeded ac → id ∈ D).
  { intros id Hid%addSucceeded_invoked. apply Hain in Hid as [_ Hid].
    subst D. by apply elem_of_list_to_set. }
  rewrite !syncInvoked_app, !addSucceeded_app.
  rewrite Hrs, Has, Hras, Hsas, app_nil_r. cbn [app].
  assert (Hids : (syncInvoked sc).*1
                 = filter (λ id, is_Some (enabledByID docs !! id))
                          (GetID <$> GetAllTraders tm2)).
  { rewrite Hsinv. apply sync_targets. }
  assert (Hnd : NoDup (syncInvoked sc).*1).
  { rewrite Hids. apply NoDup_filter. apply NoDup_fst_map_to_list. }
  assert (Hmem : ∀ id, id ∈ (syncInvoked sc).*1 ↔ id ∈ dom tm' ∩ D).
  { intros id. rewrite Hids, list_elem_of_filter, GetAllTraders_ids.
    rewrite enabledByID_is_Some, Hdom', elem_of_intersection.
    subst D. rewrite elem_of_list_to_set. tauto. }
  split_and!; try done.
  - rewrite Hy. rewrite <- (size_of_NoDup_list _ _ Hnd Hmem).
    rewrite length_fmap. lia.
  - rewrite Hdom', Hdom2, Hdom1. apply set_eq. intros id.
    specialize (Hsub id).
    rewrite !elem_of_intersection, !elem_of_union, !elem_of_intersection,
      elem_of_list_to_set. tauto.
  - intros id v Hin. rewrite Hsinv in Hin.
    apply list_elem_of_omap in Hin as ([k h] & Hk & Hf).
    unfold GetID in Hf. cbn in Hf.
    destruct (enabledByID docs !! k) as [w|] eqn:Hen; [|done].
    injection Hf as <- <-. split; [done|].
    apply elem_of_map_to_list in Hk.
    rewrite (Hflag k w); [by rewrite Hk | | done].
    apply GetAllTraders_ids, elem_of_dom. by eexists.
Qed.

(** C4.  Whatever the outcome of a pass whose snapshot was fetched, a
    worker whose identifier is both live and in the snapshot is neither
    removed nor added again: no [RemoveTrader] and no [AddTrader] is called
    for it, and the handle found under the identifier afterwards has the
    configuration and the task state it had before, whatever the record of
    the snapshot says. *)
Theorem handleAdminReload_keeps_common_workers docs (tm : TraderManager)
    tm' calls resp id h :
  handleAdminReload validate (docs, None) tm = (tm', calls, resp) →
  tm !! id = Some h →
  id ∈ (db.TraderID <$> docs) →
  (id ∉ removeInvoked calls)
  ∧ (id ∉ addInvoked calls)
  ∧ ∃ h', tm' !! id = Some h'
          ∧ traderConfig h' = traderConfig h
          ∧ taskState h' = taskState h.
Proof.
  intros Hpass Hlive Hdesired.
  destruct (handleAdminReload_inv _ _ _ _ _ Hpass)
    as (tm1 & rc & r & tm2 & ac & a & Hrem & Hadd & Hrest).
  destruct (removeLoop_pass _ _ _ _ _ Hrem)
    as (Hrnd & Hrmem & Hrf & Hr & Hra & Hraf & Hras & Hrs & Hlk1).
  destruct (addLoop_pass _ _ _ _ _ _ Hadd) as (Har & Harf & Has & Hain & Hkeep & Hdom2).
  assert (Hnr : id ∉ removeInvoked rc).
  { intros [_ ?]%Hrmem. done. }
  assert (Hna : id ∉ addInvoked ac).
  { intros [Hnl _]%Hain. apply Hnl, elem_of_dom. by eexists. }
  assert (H2 : tm2 !! id = Some h).
  { apply Hkeep. rewrite Hlk1. by rewrite decide_True. }
  destruct a as [a|].
  - destruct Hrest as (sc & y & msg & Hsync & -> & _).
    destruct (syncLoop_spec _ _ _ _ _ _ _ Hsync)
      as (Hsinv & Hy & Hsr & Hsrf & Hsa & Hsaf & Hsas & Hcfg & Hst & Hframe & Hflag).
    rewrite !removeInvoked_app, !addInvoked_app.
    rewrite Har, Hsr, Hra, Hsa, !app_nil_r. cbn [app].
    split_and!; try done.
    specialize (Hcfg id). specialize (Hst id). rewrite H2 in Hcfg, Hst.
    destruct (tm' !! id) as [h'|]; [|done].
    exists h'. split_and!; [done | by injection Hcfg | by injection Hst].
  - destruct Hrest as (-> & -> & _).
    rewrite !removeInvoked_app, !addInvoked_app.
    rewrite Har, Hra, !app_nil_r. cbn [app].
    split_and!; try done. by exists h.
Qed.

Lemma keys_empty : keys ∅ = [].
Proof. unfold keys. by rewrite map_to_list_empty. Qed.

(** C9, the defect.  With no live trader and a snapshot that is not empty,
    the handler dereferences the nil [globalConfig]: it ends in the panic
    before any call on the trader manager. *)
Theorem handleAdminReload_empty_fleet_panics d docs :
  handleAdminReload validate (d :: docs, None) ∅ = (∅, [], NilPointerDereference).
Proof.
  unfold handleAdminReload, GetAllTraders.
  rewrite map_to_list_empty. cbn [currentIDs foldl].
  rewrite keys_empty. cbn [removeLoop addLoop].
  rewrite index_empty. reflexivity.
Qed.

End ReloadFacts.

(** ** The claims at concrete inputs *)

Section Witnesses.

Import mcp manager api examples.

Lemma CallWithMessages_retry_ceiling_witness :
  APIKey (defaultConfig keyedRuntime) ≠ ""
  ∧ ∃ last,
      response (alwaysEOF (attempts keyedRuntime + 2)) = inr last
      ∧ (CallWithMessages alwaysEOF "system" "user" keyedRuntime).1
        = inr (wrapError ("重试3次后仍然失败: " +:+ Error last) last)
      ∧ attempts (CallWithMessages alwaysEOF "system" "user" keyedRuntime).2
        = (attempts keyedRuntime + 3)%nat
      ∧ slept (CallWithMessages alwaysEOF "system" "user" keyedRuntime).2
        = slept keyedRuntime ++ [2 * Second; 4 * Second]%Z.
Proof.
  split; [discriminate|].
  apply (CallWithMessages_retry_ceiling alwaysEOF "system" "user" keyedRuntime).
  - discriminate.
  - intros k _. eexists. split; reflexivity.
Defined.

Lemma CallWithMessages_permanent_error_witness :
  (CallWithMessages alwaysUnauthorized "system" "user" keyedRuntime).1
  = inr (errorString "API返回错误 (status 401): invalid api key")
  ∧ attempts (CallWithMessages alwaysUnauthorized "system" "user" keyedRuntime).2
    = 1%nat
  ∧ slept (CallWithMessages alwaysUnauthorized "system" "user" keyedRuntime).2
    = [].
Proof.
  apply (CallWithMessages_permanent_error alwaysUnauthorized "system" "user"
           keyedRuntime (errorString "API返回错误 (status 401): invalid api key")).
  - discriminate.
  - reflexivity.
  - repeat constructor.
Defined.


Lemma CallWithMessages_missing_key_witness :
  APIKey (defaultConfig freshRuntime) = ""
  ∧ (CallWithMessages alwaysEOF "system" "user" freshRuntime).2 = freshRuntime.
Proof.
  split; [reflexivity|].
  destruct (CallWithMessages_missing_key alwaysEOF "system" "user" freshRuntime)
    as [H _]; [reflexivity|].
  by rewrite H.
Defined.

Lemma handleAdminReload_set_difference_witness :
  let out := handleAdminReload acceptAll (desiredAB, None) liveBC in
  out.2 = StatusOK true "重载完成，新增 1 个，删除 1 个，同步开关 2 个" 1 1 2
  ∧ (∀ id, id ∈ removeInvoked out.1.2
           ↔ id ∈ dom liveBC ∖ list_to_set (db.TraderID <$> desiredAB))
  ∧ dom out.1.1
    = (list_to_set (db.TraderID <$> desiredAB) ∖ list_to_set (addFailed out.1.2))
      ∪ list_to_set (removeFailed out.1.2).
Proof.
  intros out.
  assert (Hout : handleAdminReload acceptAll (desiredAB, None) liveBC
                 = (out.1.1, out.1.2,
                    StatusOK true "重载完成，新增 1 个，删除 1 个，同步开关 2 个" 1 1 2))
    by (vm_compute; reflexivity).
  assert (Hnd : NoDup (db.TraderID <$> desiredAB)).
  { apply (bool_decide_unpack _). vm_compute. exact I. }
  destruct (handleAdminReload_set_difference acceptAll desiredAB liveBC
              _ _ _ _ _ _ _ Hnd Hout) as ((_ & Hr) & _ & Hdom & _).
  split; [vm_compute; reflexivity|]. split; [exact Hr | exact Hdom].
Defined.

Lemma handleAdminReload_sync_after_additions_witness :
  let out := handleAdminReload acceptAll (desiredAB, None) liveBC in
  out.2 = StatusOK true "重载完成，新增 1 个，删除 1 个，同步开关 2 个" 1 1 2
  ∧ (∀ id, id ∈ (syncInvoked out.1.2).*1
           ↔ id ∈ dom out.1.1 ∩ list_to_set (db.TraderID <$> desiredAB))
  ∧ 2%Z = Z.of_nat (size (dom out.1.1 ∩ list_to_set (db.TraderID <$> desiredAB))).
Proof.
  intros out.
  assert (Hout : handleAdminReload acceptAll (desiredAB, None) liveBC
                 = (out.1.1, out.1.2,
                    StatusOK true "重载完成，新增 1 个，删除 1 个，同步开关 2 个" 1 1 2))
    by (vm_compute; reflexivity).
  destruct (handleAdminReload_sync_after_additions acceptAll desiredAB liveBC
              _ _ _ _ _ _ _ Hout) as (_ & Hmem & Hcount & _).
  split; [vm_compute; reflexivity|]. split; [exact Hmem | exact Hcount].
Defined.

(** The scenario of the spec, D = {A, B} and L = {B, C}: the pass reports
    two synced switches, not one, and sets the switch of A, which is not in
    L ∩ D = {B}. *)
Lemma handleAdminReload_sync_counterexample :
  ∃ tm' calls ok msg added removed synced,
    handleAdminReload acceptAll (desiredAB, None) liveBC
    = (tm', calls, StatusOK ok msg added removed synced)
    ∧ (added, removed, synced) = (1, 1, 2)%Z
    ∧ synced ≠ Z.of_nat (size (dom liveBC ∩ list_to_set (db.TraderID <$> desiredAB)))
    ∧ ¬ (∀ id, id ∈ (syncInvoked calls).*1
               ↔ id ∈ dom liveBC ∩ list_to_set (db.TraderID <$> desiredAB)).
Proof.
  eexists _, _, _, _, _, _, _. split; [vm_compute; reflexivity|].
  split; [reflexivity|]. split.
  - vm_compute. discriminate.
  - intros H. specialize (H "A"). destruct H as [H _].
    assert (Hin : "A" ∈ ["A"; "B"]) by left.
    apply H in Hin. revert Hin. apply (bool_decide_unpack _). vm_compute. exact I.
Defined.

Lemma handleAdminReload_keeps_common_workers_witness :
  let out := handleAdminReload acceptAll (desiredAB, None) liveBC in
  db.AIModel (doc "B" "qwen" false)
  ≠ config.AIModel (traderConfig (handle "B" "deepseek" true))
  ∧ ("B" ∉ removeInvoked out.1.2)
  ∧ ("B" ∉ addInvoked out.1.2)
  ∧ ∃ h', out.1.1 !! "B" = Some h'
          ∧ traderConfig h' = traderConfig (handle "B" "deepseek" true)
          ∧ taskState h' = taskState (handle "B" "deepseek" true).
Proof.
  intros out. split; [discriminate|].
  apply (handleAdminReload_keeps_common_workers acceptAll desiredAB liveBC
           out.1.1 out.1.2 out.2 "B" (handle "B" "deepseek" true)).
  - vm_compute. reflexivity.
  - vm_compute. reflexivity.
  - apply (bool_decide_unpack _). vm_compute. exact I.
Defined.

End Witnesses.

(** * Further properties of the invocation client *)

Section InvocationMore.

Import mcp.

Variable net : nat → Outcome.

(** An occurrence in a suffix is an occurrence in the whole. *)
Lemma Contains_append_r (p s substr : string) :
  Contains s substr = true → Contains (p +:+ s) substr = true.
Proof.
  intros H. induction p as [|a p IH]; [exact H|].
  change (Contains (String a (p +:+ s)) substr = true).
  cbn [Contains]. rewrite IH. by destruct (String.prefix _ _).
Qed.

Lemma isRetryableError_Errorf_w prefix cause :
  isRetryableError cause = true → isRetryableError (Errorf_w prefix cause) = true.
Proof.
  unfold isRetryableError. intros (ind & Hin & Hc)%existsb_exists.
  apply existsb_exists. exists ind. split; [done|].
  by apply Contains_append_r.
Qed.

(** One iteration that succeeds. *)
Lemma attemptLoop_success remaining attempt lastErr sys usr rt content :
  response (net (attempts rt)) = inl content →
  attemptLoop net (S remaining) attempt lastErr sys usr rt =
  (inl content, (callOnce net (defaultConfig rt) sys usr rt).2).
Proof.
  intros Hres. cbn [attemptLoop]. unfold callOnce. cbn beta iota zeta.
  rewrite Hres. reflexivity.
Qed.

(** What one call of [callOnce] adds to the requests sent: at most the
    request built from its arguments. *)
Lemma callOnce_sent cfg sys usr rt :
  ∃ n, (n ≤ 1)%nat
       ∧ sent (callOnce net cfg sys usr rt).2
         = sent rt ++ replicate n (buildRequest cfg sys usr).
Proof.
  unfold callOnce. cbn [snd sent]. destruct (reachesTransport _).
  - exists 1%nat. split; [lia | reflexivity].
  - exists 0%nat. split; [lia|]. by rewrite app_nil_r.
Qed.

(** The runtime between two calls of [callOnce] in one invocation, as far
    as the loop can tell: [k] attempts made, [n] requests sent, [ws] slept. *)
Lemma callOnce_step cfg sys usr rt0 rt k n ws :
  attempts rt = (attempts rt0 + k)%nat →
  defaultConfig rt = cfg →
  sent rt = sent rt0 ++ replicate n (buildRequest cfg sys usr) →
  slept rt = slept rt0 ++ ws →
  let rt' := (callOnce net (defaultConfig rt) sys usr rt).2 in
  attempts rt' = (attempts rt0 + S k)%nat
  ∧ defaultConfig rt' = cfg
  ∧ slept rt' = slept rt0 ++ ws
  ∧ ∃ n', (n ≤ n' ≤ S n)%nat
          ∧ sent rt' = sent rt0 ++ replicate n' (buildRequest cfg sys usr).
Proof.
  intros Ha Hc Hs Hw rt'.
  destruct (callOnce_sent (defaultConfig rt) sys usr rt) as (m & Hm & Hsent).
  fold rt' in Hsent. split_and!.
  - subst rt'. cbn. lia.
  - done.
  - done.
  - exists (n + m)%nat. split; [lia|].
    rewrite Hsent, Hs, Hc, <- app_assoc. f_equal.
    by rewrite replicate_add.
Qed.

(** X1.  Whatever the provider does, one call of [CallWithMessages] makes
    at most three attempts, hands the HTTP client at most one request per
    attempt, each of them the request built from the default configuration
    and the two prompts, sleeps 2 s before a second attempt and 4 s before a
    third and never otherwise, and leaves the default configuration as it
    was. *)
Theorem CallWithMessages_footprint sys usr rt :
  let out := CallWithMessages net sys usr rt in
  ∃ k n,
    (n ≤ k ≤ 3)%nat
    ∧ attempts out.2 = (attempts rt + k)%nat
    ∧ sent out.2
      = sent rt ++ replicate n (buildRequest (defaultConfig rt) sys usr)
    ∧ slept out.2 = slept rt ++ take (k - 1) [2 * Second; 4 * Second]%Z
    ∧ defaultConfig out.2 = defaultConfig rt.
Proof.
  unfold CallWithMessages.
  destruct (String.eqb (APIKey (defaultConfig rt)) "").
  { exists 0%nat, 0%nat. cbn. rewrite !app_nil_r. split_and!; try done; lia. }
  change (Z.to_nat maxRetries) with 3%nat.
  set (cfg := defaultConfig rt).
  assert (Ha0 : attempts rt = (attempts rt + 0)%nat) by lia.
  assert (Hs0 : sent rt = sent rt ++ replicate 0 (buildRequest cfg sys usr))
    by (by rewrite app_nil_r).
  assert (Hw0 : slept rt = slept rt ++ []) by (by rewrite app_nil_r).
  destruct (callOnce_step cfg sys usr rt rt 0 0 [] Ha0 eq_refl Hs0 Hw0)
    as (Ha1 & Hc1 & Hw1 & n1 & Hn1 & Hs1).
  (* first attempt *)
  destruct (response (net (attempts rt))) as [c|e] eqn:H1.
  { rewrite (attemptLoop_success _ _ _ _ _ _ c H1).
    exists 1%nat, n1. cbn [snd]. rewrite Ha1, Hs1, Hw1, Hc1.
    split_and!; try done; lia. }
  destruct (isRetryableError e) eqn:R1.
  2:{ rewrite (attemptLoop_stop net _ _ _ _ _ _ e H1 R1).
      exists 1%nat, n1. cbn [snd]. rewrite Ha1, Hs1, Hw1, Hc1.
      split_and!; try done; lia. }
  rewrite (attemptLoop_retry net _ _ _ _ _ _ e H1 R1).
  cbn zeta. change (1 <? maxRetries)%Z with true. cbn iota.
  set (rt1 := Sleep (1 * 2 * Second) (callOnce net (defaultConfig rt) sys usr rt).2) in *.
  assert (Hw1' : slept rt1 = slept rt ++ [2 * Second]%Z).
  { subst rt1. cbn [Sleep slept]. rewrite Hw1, app_nil_r. reflexivity. }
  destruct (callOnce_step cfg sys usr rt rt1 1 n1 _ Ha1 Hc1 Hs1 Hw1')
    as (Ha2 & Hc2 & Hw2 & n2 & Hn2 & Hs2).
  clearbody rt1.
  (* second attempt *)
  destruct (response (net (attempts rt1))) as [c|e2] eqn:H2.
  { rewrite (attemptLoop_success _ _ _ _ _ _ c H2).
    exists 2%nat, n2. cbn [snd]. rewrite Ha2, Hs2, Hw2, Hc2.
    split_and!; try done; lia. }
  destruct (isRetryableError e2) eqn:R2.
  2:{ rewrite (attemptLoop_stop net _ _ _ _ _ _ e2 H2 R2).
      exists 2%nat, n2. cbn [snd]. rewrite Ha2, Hs2, Hw2, Hc2.
      split_and!; try done; lia. }
  rewrite (attemptLoop_retry net _ _ _ _ _ _ e2 H2 R2).
  cbn zeta. change (1 + 1 <? maxRetries)%Z with true. cbn iota.
  set (rt2 := Sleep ((1 + 1) * 2 * Second) (callOnce net (defaultConfig rt1) sys usr rt1).2) in *.
  assert (Hw2' : slept rt2 = slept rt ++ [2 * Second; 4 * Second]%Z).
  { subst rt2. cbn [Sleep slept]. rewrite Hw2, <- app_assoc. reflexivity. }
  destruct (callOnce_step cfg sys usr rt rt2 2 n2 _ Ha2 Hc2 Hs2 Hw2')
    as (Ha3 & Hc3 & Hw3 & n3 & Hn3 & Hs3).
  clearbody rt2.
  (* third attempt *)
  destruct (response (net (attempts rt2))) as [c|e3] eqn:H3.
  { rewrite (attemptLoop_success _ _ _ _ _ _ c H3).
    exists 3%nat, n3. cbn [snd]. rewrite Ha3, Hs3, Hw3, Hc3.
    split_and!; try done; lia. }
  destruct (isRetryableError e3) eqn:R3.
  2:{ rewrite (attemptLoop_stop net _ _ _ _ _ _ e3 H3 R3).
      exists 3%nat, n3. cbn [snd]. rewrite Ha3, Hs3, Hw3, Hc3.
      split_and!; try done; lia. }
  rewrite (attemptLoop_retry net _ _ _ _ _ _ e3 H3 R3).
  cbn zeta. change (1 + 1 + 1 <? maxRetries)%Z with false. cbn iota.
  cbn [attemptLoop snd].
  exists 3%nat, n3. rewrite Ha3, Hs3, Hw3, Hc3.
  split_and!; try done; lia.
Qed.


(** X2.  When the key is set, the first [k] attempts (k < 3) meet errors
    classified as retryable and the next attempt succeeds,
    [CallWithMessages] returns the content of that attempt after k + 1
    attempts, having slept 2 s, then 4 s, once per failed attempt. *)
Theorem CallWithMessages_recovers sys usr rt k content :
  APIKey (defaultConfig rt) ≠ "" →
  (k < 3)%nat →
  (∀ j, (j < k)%nat →
        ∃ err, response (net (attempts rt + j)) = inr err
               ∧ isRetryableError err = true) →
  response (net (attempts rt + k)) = inl content →
  (CallWithMessages net sys usr rt).1 = inl content
  ∧ attempts (CallWithMessages net sys usr rt).2 = (attempts rt + k + 1)%nat
  ∧ slept (CallWithMessages net sys usr rt).2
    = slept rt ++ take k [2 * Second; 4 * Second]%Z.
Proof.
  intros Hkey Hk Hfail Hok.
  unfold CallWithMessages. rewrite (eqb_key_false _ Hkey).
  change (Z.to_nat maxRetries) with 3%nat.
  destruct k as [|[|[|k]]]; [| | |lia].
  - rewrite Nat.add_0_r in Hok.
    rewrite (attemptLoop_success _ _ _ _ _ _ content Hok).
    cbn. rewrite app_nil_r. split_and!; [done | lia | done].
  - destruct (Hfail 0%nat) as (e1 & H1 & R1); [lia|].
    rewrite Nat.add_0_r in H1.
    rewrite (attemptLoop_retry net _ _ _ _ _ _ e1 H1 R1).
    cbn zeta. change (1 <? maxRetries)%Z with true. cbn iota.
    rewrite (attemptLoop_success _ _ _ _ _ _ content).
    2:{ cbn. rewrite <- Hok. f_equal. f_equal. lia. }
    cbn. split_and!; [done | lia | done].
  - destruct (Hfail 0%nat) as (e1 & H1 & R1); [lia|].
    destruct (Hfail 1%nat) as (e2 & H2 & R2); [lia|].
    rewrite Nat.add_0_r in H1.
    rewrite (attemptLoop_retry net _ _ _ _ _ _ e1 H1 R1).
    cbn zeta. change (1 <? maxRetries)%Z with true. cbn iota.
    rewrite (attemptLoop_retry net _ _ _ _ _ _ e2).
    2:{ cbn. rewrite <- H2. f_equal. f_equal. lia. }
    2: exact R2.
    cbn zeta. change (1 + 1 <? maxRetries)%Z with true. cbn iota.
    rewrite (attemptLoop_success _ _ _ _ _ _ content).
    2:{ cbn. rewrite <- Hok. f_equal. f_equal. lia. }
    cbn. split_and!; [done | lia | by rewrite <- app_assoc].
Qed.

(** X3.  Wrapping keeps the classification: when sending the request or
    reading the answer fails with a cause classified as retryable, the error
    [callOnce] returns wraps that cause and is classified as retryable
    too. *)
Theorem transport_error_keeps_classification cause :
  isRetryableError cause = true →
  (∃ err, response (DoError cause) = inr err
          ∧ Unwrap err = Some cause ∧ isRetryableError err = true)
  ∧ (∃ err, response (ReadAllError cause) = inr err
            ∧ Unwrap err = Some cause ∧ isRetryableError err = true).
Proof.
  intros H. split; eexists; (split; [reflexivity|]);
    (split; [reflexivity | by apply isRetryableError_Errorf_w]).
Qed.

(** X4.  The body of an answer with a status other than 200 is part of the
    error text that is classified: when it contains one of the transient
    indicators, the error of the attempt is classified as retryable. *)
Theorem http_error_body_is_classified status body decoded indicator :
  status ≠ 200%Z →
  indicator ∈ retryableErrors →
  Contains body indicator = true →
  ∃ err, response (Received status body decoded) = inr err
         ∧ Error err = "API返回错误 (status " +:+ itoa status +:+ "): " +:+ body
         ∧ isRetryableError err = true.
Proof.
  intros Hs Hin Hc. cbn [response].
  apply Z.eqb_neq in Hs. rewrite Hs. cbn [negb].
  eexists. split; [reflexivity|]. split; [reflexivity|].
  unfold isRetryableError. apply existsb_exists. exists indicator.
  split; [by apply list_elem_of_In|].
  cbn [Error]. by do 3 apply Contains_append_r.
Qed.

(** X5.  After [SetConfig] the default timeout is never zero: a zero
    timeout is replaced by 30 s, any other is kept, and the other fields
    are those given. *)
Theorem SetConfig_timeout config rt :
  let cfg := defaultConfig (SetConfig config rt) in
  Timeout cfg ≠ 0%Z
  ∧ Timeout cfg = (if (Timeout config =? 0)%Z then 30 * Second else Timeout config)%Z
  ∧ (Provider_ cfg, APIKey cfg, SecretKey cfg, BaseURL cfg, Model cfg)
    = (Provider_ config, APIKey config, SecretKey config, BaseURL config,
       Model config).
Proof.
  unfold SetConfig. cbn [defaultConfig].
  destruct (Timeout config =? 0)%Z eqn:Ht; cbn.
  - split_and!; done.
  - apply Z.eqb_neq in Ht. split_and!; done.
Qed.

(** The first request of an invocation whose first attempt gets as far as
    the HTTP client. *)
Lemma CallWithMessages_first_request sys usr rt :
  APIKey (defaultConfig rt) ≠ "" →
  reachesTransport (net (attempts rt)) = true →
  sent (CallWithMessages net sys usr rt).2 !! length (sent rt)
  = Some (buildRequest (defaultConfig rt) sys usr).
Proof.
  intros Hkey Hreach.
  assert (Hone : sent (callOnce net (defaultConfig rt) sys usr rt).2
                 = sent rt ++ [buildRequest (defaultConfig rt) sys usr]).
  { unfold callOnce. cbn [snd sent]. by rewrite Hreach. }
  assert (Hpre : sent (callOnce net (defaultConfig rt) sys usr rt).2
                 `prefix_of` sent (CallWithMessages net sys usr rt).2).
  { unfold CallWithMessages. rewrite (eqb_key_false _ Hkey).
    change (Z.to_nat maxRetries) with 3%nat.
    destruct (response (net (attempts rt))) as [c|e] eqn:H1.
    { by rewrite (attemptLoop_success _ _ _ _ _ _ c H1). }
    destruct (isRetryableError e) eqn:R1.
    2:{ by rewrite (attemptLoop_stop net _ _ _ _ _ _ e H1 R1). }
    rewrite (attemptLoop_retry net _ _ _ _ _ _ e H1 R1).
    cbn zeta. change (1 <? maxRetries)%Z with true. cbn iota.
    set (rt1 := Sleep _ _).
    assert (Hs1 : sent rt1 = sent (callOnce net (defaultConfig rt) sys usr rt).2)
      by reflexivity.
    rewrite <- Hs1. clearbody rt1. clear.
    generalize 2%nat (1 + 1)%Z (Some e). intros remaining attempt lastErr.
    revert attempt lastErr rt1.
    induction remaining as [|remaining IH]; intros attempt lastErr rt1; [done|].
    cbn [attemptLoop]. 
    destruct (callOnce net (defaultConfig rt1) sys usr rt1) as [res rt2] eqn:Hcall.
    assert (Hp : sent rt1 `prefix_of` sent rt2).
    { destruct (callOnce_sent (defaultConfig rt1) sys usr rt1) as (m & _ & Hm).
      rewrite Hcall in Hm. cbn in Hm. rewrite Hm. by apply prefix_app_r. }
    destruct res as [c|e']; [done|].
    destruct (isRetryableError e'); [|done]. cbn [negb].
    etrans; [exact Hp|]. 
    destruct (attempt <? maxRetries)%Z; [|apply IH].
    change (sent rt2) with (sent (Sleep (attempt * 2 * Second) rt2)). apply IH. }
  rewrite Hone in Hpre. destruct Hpre as [rest ->].
  rewrite <- app_assoc. rewrite lookup_app_r by lia.
  by rewrite Nat.sub_diag.
Qed.


(** X6.  The provider set last is the one called: after one of the three
    setters has stored a key that is not empty, the first request of
    [CallWithMessages] that gets as far as the HTTP client goes to the chat
    completions path of the base URL of that provider, with that key as the
    bearer token and the model of that provider. *)
Theorem configured_provider_is_called sys usr rt key secret url model :
  key ≠ "" →
  reachesTransport (net (attempts rt)) = true →
  (∃ req, sent (CallWithMessages net sys usr (SetDeepSeekAPIKey key rt)).2
            !! length (sent rt) = Some req
          ∧ req_url req = "https://api.deepseek.com/v1/chat/completions"
          ∧ req_authorization req = "Bearer " +:+ key
          ∧ req_model req = "deepseek-chat")
  ∧ (∃ req, sent (CallWithMessages net sys usr (SetQwenAPIKey key secret rt)).2
              !! length (sent rt) = Some req
            ∧ req_url req
              = "https://dashscope.aliyuncs.com/compatible-mode/v1/chat/completions"
            ∧ req_authorization req = "Bearer " +:+ key
            ∧ req_model req = "qwen-plus")
  ∧ (∃ req, sent (CallWithMessages net sys usr (SetCustomAPI url key model rt)).2
              !! length (sent rt) = Some req
            ∧ req_url req = url +:+ "/chat/completions"
            ∧ req_authorization req = "Bearer " +:+ key
            ∧ req_model req = model
            ∧ req_timeout req = (120 * Second)%Z).
Proof.
  intros Hkey Hreach. split_and!.
  - eexists. split; [by apply (CallWithMessages_first_request sys usr (SetDeepSeekAPIKey key rt)) | split_and!; reflexivity].
  - eexists. split; [by apply (CallWithMessages_first_request sys usr (SetQwenAPIKey key secret rt)) | split_and!; reflexivity].
  - eexists. split; [by apply (CallWithMessages_first_request sys usr (SetCustomAPI url key model rt)) | split_and!; reflexivity].
Qed.

(** X26.  [CallWithMessagesWithConfig] works with the configuration it is
    given and not with the shared default: it leaves the default as it was,
    its result is the same whatever the default holds, and the request it
    sends, if any, is built from the configuration given. *)
Theorem CallWithMessagesWithConfig_ignores_default cfg other sys usr rt :
  defaultConfig (CallWithMessagesWithConfig net cfg sys usr rt).2
  = defaultConfig rt
  ∧ (CallWithMessagesWithConfig net cfg sys usr (SetConfig other rt)).1
    = (CallWithMessagesWithConfig net cfg sys usr rt).1
  ∧ ∃ n, (n ≤ 1)%nat
         ∧ sent (CallWithMessagesWithConfig net cfg sys usr rt).2
           = sent rt ++ replicate n (buildRequest cfg sys usr).
Proof.
  unfold CallWithMessagesWithConfig.
  destruct (String.eqb (APIKey cfg) "").
  - split_and!; [done | done |]. exists 0%nat.
    split; [lia|]. cbn. by rewrite app_nil_r.
  - split_and!; [done | done |]. apply callOnce_sent.
Qed.

End InvocationMore.

Section InvocationMoreWitnesses.

Import mcp examples.

Lemma CallWithMessages_recovers_witness :
  (CallWithMessages flakyOnce "system" "user" keyedRuntime).1 = inl "hold"
  ∧ attempts (CallWithMessages flakyOnce "system" "user" keyedRuntime).2 = 2%nat
  ∧ slept (CallWithMessages flakyOnce "system" "user" keyedRuntime).2
    = [2 * Second]%Z.
Proof.
  apply (CallWithMessages_recovers flakyOnce "system" "user" keyedRuntime 1 "hold").
  - discriminate.
  - lia.
  - intros j Hj. assert (j = 0%nat) as -> by lia.
    eexists. split; reflexivity.
  - reflexivity.
Defined.

Lemma transport_error_keeps_classification_witness :
  ∃ err, response (DoError (errorString "unexpected EOF")) = inr err
         ∧ Unwrap err = Some (errorString "unexpected EOF")
         ∧ isRetryableError err = true.
Proof.
  apply (transport_error_keeps_classification (errorString "unexpected EOF")).
  reflexivity.
Defined.

Lemma http_error_body_is_classified_witness :
  ∃ err, response (gatewayTimeout 0) = inr err
         ∧ Error err = "API返回错误 (status 504): upstream request timeout"
         ∧ isRetryableError err = true.
Proof.
  apply (http_error_body_is_classified 504 "upstream request timeout"
           (inl (errorString "not decoded")) "timeout").
  - discriminate.
  - right. left.
  - reflexivity.
Defined.

Lemma configured_provider_is_called_witness :
  ∃ req, sent (CallWithMessages alwaysEmpty "system" "user"
                 (SetQwenAPIKey "sk-qwen" "secret" freshRuntime)).2 !! 0%nat
         = Some req
         ∧ req_url req
           = "https://dashscope.aliyuncs.com/compatible-mode/v1/chat/completions"
         ∧ req_authorization req = "Bearer sk-qwen"
         ∧ req_model req = "qwen-plus".
Proof.
  destruct (configured_provider_is_called alwaysEmpty "system" "user"
              freshRuntime "sk-qwen" "secret" "http://localhost:8000/v1" "local")
    as (_ & H & _); [discriminate | reflexivity | exact H].
Defined.

End InvocationMoreWitnesses.


(** * Further properties of the reload handler *)

Section ReloadMore.

Import manager api.

Variable validate : config.TraderConfig → option error.

(** The addition loop panics only when there is no current trader. *)
Lemma addLoop_panic_inv docs ts cur (tm : TraderManager) n tm' calls :
  addLoop validate docs ts cur tm n = (tm', calls, None) →
  ts = [] ∧ ∃ d, d ∈ docs ∧ index cur (db.TraderID d) = false.
Proof.
  revert tm n tm' calls.
  induction docs as [|d docs IH]; intros tm n tm' calls Hloop; cbn in Hloop.
  - done.
  - destruct (index cur (db.TraderID d)) eqn:Hcur; cbn in Hloop.
    { destruct (IH _ _ _ _ Hloop) as (Hts & d' & Hd' & Hi).
      split; [done|]. exists d'. split; [by right | done]. }
    destruct ts as [|t ts].
    { split; [done|]. exists d. split; [left | done]. }
    assert (Hpos : (0 <? Z.of_nat (length (t :: ts)))%Z = true).
    { apply Z.ltb_lt. cbn [length]. lia. }
    rewrite Hpos in Hloop.
    destruct (AddTrader validate _ _ _ _ _ _ tm) as [tm0 [e|]].
    + match type of Hloop with
      | context [addLoop validate docs ?a ?b ?m ?k] =>
          destruct (addLoop validate docs a b m k) as [[tm1 c1] r1] eqn:Hrec
      end.
      injection Hloop as <- <- ->.
      destruct (IH _ _ _ _ Hrec) as (Hts & _). done.
    + destruct (GetTrader (db.TraderID d) tm0) as [t0|e0];
        match type of Hloop with
        | context [addLoop validate docs ?a ?b ?m ?k] =>
            destruct (addLoop validate docs a b m k) as [[tm1 c1] r1] eqn:Hrec
        end;
        injection Hloop as <- <- ->;
        destruct (IH _ _ _ _ Hrec) as (Hts & _); done.
Qed.

(** The traders the loop has added: each once, each new, each running
    with the configuration of a document of the snapshot. *)
Lemma addLoop_succeeded docs ts cur (tm : TraderManager) n tm' calls r :
  addLoop validate docs ts cur tm n = (tm', calls, r) →
  NoDup (addSucceeded calls)
  ∧ ∀ id, id ∈ addSucceeded calls →
          tm !! id = None
          ∧ ∃ d, d ∈ docs ∧ db.TraderID d = id
                 ∧ tm' !! id
                   = Some {| traderConfig := db.ToConfig d;
                             taskState := Running;
                             tradingEnabled := db.Enabled d |}.
Proof.
  revert tm n tm' calls r.
  induction docs as [|d docs IH]; intros tm n tm' calls r Hloop; cbn in Hloop.
  - injection Hloop as <- <- <-. split; [constructor|].
    intros id Hid. by apply not_elem_of_nil in Hid.
  - destruct (index cur (db.TraderID d)) eqn:Hcur; cbn in Hloop.
    { destruct (IH _ _ _ _ _ Hloop) as (Hnd & Hall). split; [done|].
      intros id Hid. destruct (Hall id Hid) as (Hnone & d' & Hd' & Hrest).
      split; [done|]. exists d'. split; [by right | done]. }
    destruct (0 <? Z.of_nat (length ts))%Z.
    2:{ injection Hloop as <- <- <-. split; [constructor|].
        intros id Hid. by apply not_elem_of_nil in Hid. }
    unfold AddTrader in Hloop. cbn in Hloop.
    destruct (tm !! db.TraderID d) as [h0|] eqn:Hlook.
    { destruct (addLoop validate docs ts cur tm n) as [[tm1 c1] r1] eqn:Hrec.
      injection Hloop as <- <- <-.
      destruct (IH _ _ _ _ _ Hrec) as (Hnd & Hall). split; [done|].
      intros id Hid. destruct (Hall id Hid) as (Hnone & d' & Hd' & Hrest).
      split; [done|]. exists d'. split; [by right | done]. }
    destruct (validate (db.ToConfig d)) as [e|] eqn:Hval.
    { destruct (addLoop validate docs ts cur tm n) as [[tm1 c1] r1] eqn:Hrec.
      injection Hloop as <- <- <-.
      destruct (IH _ _ _ _ _ Hrec) as (Hnd & Hall). split; [done|].
      intros id Hid. destruct (Hall id Hid) as (Hnone & d' & Hd' & Hrest).
      split; [done|]. exists d'. split; [by right | done]. }
    unfold GetTrader in Hloop. rewrite lookup_insert_eq in Hloop.
    match type of Hloop with
    | context [addLoop validate docs ts cur ?m ?k] =>
        destruct (addLoop validate docs ts cur m k) as [[tm1 c1] r1] eqn:Hrec;
        set (tm0 := m) in *
    end.
    injection Hloop as <- <- <-.
    destruct (IH _ _ _ _ _ Hrec) as (Hnd & Hall).
    destruct (addLoop_frame _ _ _ _ _ _ _ _ _ Hrec) as (_ & _ & _ & _ & Hkeep & _).
    assert (H0 : tm0 !! db.TraderID d
                 = Some {| traderConfig := db.ToConfig d; taskState := Running;
                           tradingEnabled := db.Enabled d |}).
    { subst tm0. unfold Run, GetID. cbn [fst].
      by rewrite lookup_alter_eq, lookup_insert_eq. }
    assert (Hother : ∀ id, id ≠ db.TraderID d → tm0 !! id = tm !! id).
    { intros id Hne. subst tm0. unfold Run, GetID. cbn [fst].
      by rewrite lookup_alter_ne, lookup_insert_ne. }
    change (addSucceeded (CallAddTrader (db.ToConfig d) None
                            :: CallRun (db.TraderID d) :: c1))
      with (db.TraderID d :: addSucceeded c1).
    split.
    + apply NoDup_cons. split; [|done].
      intros Hin. destruct (Hall _ Hin) as (Hnone & _). congruence.
    + intros id [->|Hid]%elem_of_cons.
      * split; [done|]. exists d. split; [left|]. split; [done|]. by apply Hkeep.
      * destruct (Hall id Hid) as (Hnone & d' & Hd' & Hrest).
        assert (id ≠ db.TraderID d) by congruence.
        split; [by rewrite <- Hother|].
        exists d'. split; [by right | done].
Qed.

(** The switches the synchronisation loop of a pass sets. *)
Lemma syncLoop_pass docs (tm2 : TraderManager) tm' sc y :
  syncLoop (GetAllTraders tm2) (enabledByID docs) tm2 0 = (tm', sc, y) →
  dom tm' = dom tm2
  ∧ y = Z.of_nat (size (dom tm2 ∩ list_to_set (db.TraderID <$> docs) : gset string))
  ∧ removeInvoked sc = [] ∧ removeFailed sc = [] ∧ addInvoked sc = []
  ∧ addFailed sc = [] ∧ addSucceeded sc = []
  ∧ (∀ id, traderConfig <$> tm' !! id = traderConfig <$> tm2 !! id)
  ∧ (∀ id, taskState <$> tm' !! id = taskState <$> tm2 !! id)
  ∧ (∀ id v, is_Some (tm2 !! id) → enabledByID docs !! id = Some v →
             tradingEnabled <$> tm' !! id = Some v).
Proof.
  intros Hsync.
  destruct (syncLoop_spec _ _ _ _ _ _ _ Hsync)
    as (Hsinv & Hy & Hsr & Hsrf & Hsa & Hsaf & Hsas & Hcfg & Hst & Hframe & Hflag).
  assert (Hdom : dom tm' = dom tm2).
  { apply set_eq. intros id. rewrite !elem_of_dom.
    rewrite <- !(fmap_is_Some traderConfig). by rewrite Hcfg. }
  split_and!; try done.
  - rewrite Hy, Z.add_0_l. f_equal.
    rewrite <- (length_fmap fst), Hsinv, sync_targets.
    apply size_of_NoDup_list.
    + apply NoDup_filter, NoDup_fst_map_to_list.
    + intros id. rewrite list_elem_of_filter, GetAllTraders_ids.
      rewrite enabledByID_is_Some, elem_of_intersection, elem_of_list_to_set.
      tauto.
  - intros id v [h Hh] Hen. rewrite (Hflag id v); [by rewrite Hh | | done].
    apply GetAllTraders_ids, elem_of_dom. by eexists.
Qed.


(** X7.  After a successful fetch the handler ends in the nil pointer
    panic exactly when no trader is live and the snapshot is not empty: with
    one live trader, or with an empty snapshot, it always answers with its
    counts. *)
Theorem handleAdminReload_panics_iff docs (tm : TraderManager) :
  (handleAdminReload validate (docs, None) tm).2 = NilPointerDereference
  ↔ tm = ∅ ∧ docs ≠ [].
Proof.
  split.
  - destruct (handleAdminReload validate (docs, None) tm) as [[tm' calls] resp] eqn:Hpass.
    cbn [snd]. intros ->.
    destruct (handleAdminReload_inv _ _ _ _ _ _ Hpass)
      as (tm1 & rc & r & tm2 & ac & a & Hrem & Hadd & Hrest).
    destruct a as [a|]; [by destruct Hrest as (? & ? & ? & _ & _ & ?)|].
    destruct (addLoop_panic_inv _ _ _ _ _ _ _ Hadd) as (Hts & d & Hd & _).
    split.
    + by apply map_to_list_empty_iff.
    + intros ->. by apply not_elem_of_nil in Hd.
  - intros [-> Hne]. destruct docs as [|d docs]; [done|].
    unfold handleAdminReload, GetAllTraders.
    rewrite map_to_list_empty. cbn [currentIDs foldl].
    rewrite keys_empty. cbn [removeLoop addLoop].
    rewrite index_empty. reflexivity.
Qed.

(** A pass over a fleet whose identifiers are those of the snapshot. *)
Lemma converged_pass docs (tm : TraderManager) :
  dom tm = list_to_set (db.TraderID <$> docs) →
  ∃ tm' calls msg,
    handleAdminReload validate (docs, None) tm
    = (tm', calls, StatusOK true msg 0 0 (Z.of_nat (size tm)))
    ∧ removeInvoked calls = [] ∧ addInvoked calls = []
    ∧ dom tm' = dom tm.
Proof.
  intros HLD.
  destruct (handleAdminReload validate (docs, None) tm) as [[tm' calls] resp] eqn:Hpass.
  destruct (handleAdminReload_inv _ _ _ _ _ _ Hpass)
    as (tm1 & rc & r & tm2 & ac & a & Hrem & Hadd & Hrest).
  destruct (removeLoop_pass _ _ _ _ _ Hrem)
    as (Hrnd & Hrmem & Hrf & Hr & Hra & Hraf & Hras & Hrs & Hlk1).
  destruct (addLoop_pass _ _ _ _ _ _ _ Hadd) as (Har & Harf & Has & Hain & Hkeep & Hdom2).
  assert (Hrnil : removeInvoked rc = []).
  { apply elem_of_nil_inv. intros id [HL HD]%Hrmem. apply HD.
    rewrite HLD in HL. by apply elem_of_list_to_set in HL. }
  assert (Hanil : addInvoked ac = []).
  { apply elem_of_nil_inv. intros id [HL HD]%Hain. apply HL.
    rewrite HLD. by apply elem_of_list_to_set. }
  assert (Hsnil : addSucceeded ac = [] ∧ addFailed ac = []).
  { pose proof (addInvoked_split ac) as Hsplit. rewrite Hanil in Hsplit.
    apply Permutation_nil_l in Hsplit. symmetry in Hsplit.
    by apply app_eq_nil in Hsplit. }
  destruct Hsnil as [Hsucc Hfail].
  assert (Htm1 : tm1 = tm).
  { apply map_eq. intros id. rewrite Hlk1. case_decide as HD; [done|].
    symmetry. apply not_elem_of_dom. rewrite HLD.
    by rewrite elem_of_list_to_set. }
  destruct a as [a|].
  2:{ destruct (addLoop_panic_inv _ _ _ _ _ _ _ Hadd) as (_ & d & Hd & Hi).
      rewrite index_currentIDs in Hi. apply bool_decide_eq_false in Hi.
      exfalso. apply Hi. rewrite HLD. apply elem_of_list_to_set.
      apply list_elem_of_fmap. by exists d. }
  destruct Hrest as (sc & y & msg & Hsync & -> & ->).
  destruct (addLoop_spec _ _ _ _ _ _ _ _ _ Hadd) as (_ & Ha).
  destruct (syncLoop_pass _ _ _ _ _ Hsync)
    as (Hdom' & Hy & Hsr & Hsrf & Hsa & Hsaf & Hsas & _).
  assert (Hdom : dom tm2 = dom tm).
  { rewrite Hdom2, Hsucc, Htm1. cbn. by rewrite (right_id_L ∅ (∪)). }
  assert (Ha0 : a = 0%Z) by (rewrite Ha, Hanil, Hfail; reflexivity).
  assert (Hr0 : r = 0%Z) by (rewrite Hr, Hrnil; reflexivity).
  assert (Hy0 : y = Z.of_nat (size tm)).
  { rewrite Hy, Hdom, HLD. f_equal.
    rewrite (idemp_L (∩)). rewrite <- HLD. apply size_dom. }
  rewrite Ha0, Hr0, Hy0.
  exists tm', (rc ++ ac ++ sc), msg.
  rewrite !removeInvoked_app, !addInvoked_app.
  rewrite Hrnil, Har, Hsr, Hra, Hanil, Hsa. cbn [app].
  split_and!; try done. by rewrite Hdom', Hdom.
Qed.

(** X8.  A pass over a fleet whose identifiers are exactly those of the
    snapshot calls neither [RemoveTrader] nor [AddTrader], keeps the live
    set, and reports no addition, no removal and as many synced switches as
    there are live traders. *)
Theorem handleAdminReload_converged docs (tm : TraderManager) :
  dom tm = list_to_set (db.TraderID <$> docs) →
  ∃ tm' calls msg,
    handleAdminReload validate (docs, None) tm
    = (tm', calls, StatusOK true msg 0 0 (Z.of_nat (size tm)))
    ∧ removeInvoked calls = [] ∧ addInvoked calls = []
    ∧ dom tm' = dom tm.
Proof. apply converged_pass. Qed.

(** The live set after a pass that answers with its counts. *)
Lemma live_set_after_pass docs (tm : TraderManager)
    tm' calls ok msg added removed synced :
  handleAdminReload validate (docs, None) tm
  = (tm', calls, StatusOK ok msg added removed synced) →
  dom tm' = (dom tm ∩ list_to_set (db.TraderID <$> docs))
            ∪ list_to_set (addSucceeded calls)
  ∧ NoDup (addSucceeded calls)
  ∧ (∀ id, id ∈ addSucceeded calls →
           (id ∉ dom tm) ∧ id ∈ (db.TraderID <$> docs))
  ∧ (∀ id, id ∈ addInvoked calls ↔
           (id ∉ dom tm) ∧ id ∈ (db.TraderID <$> docs))
  ∧ added = Z.of_nat (length (addSucceeded calls))
  ∧ removed
    = Z.of_nat (size (dom tm ∖ list_to_set (db.TraderID <$> docs) : gset string)).
Proof.
  intros Hpass.
  destruct (handleAdminReload_inv _ _ _ _ _ _ Hpass)
    as (tm1 & rc & r & tm2 & ac & a & Hrem & Hadd & Hrest).
  destruct a as [a|]; [|by destruct Hrest as (_ & _ & ?)].
  destruct Hrest as (sc & y & msg' & Hsync & -> & Hresp).
  injection Hresp as -> -> <- <- <-.
  destruct (removeLoop_pass _ _ _ _ _ Hrem)
    as (Hrnd & Hrmem & Hrf & Hr & Hra & Hraf & Hras & Hrs & Hlk1).
  destruct (addLoop_pass _ _ _ _ _ _ _ Hadd) as (Har & Harf & Has & Hain & Hkeep & Hdom2).
  destruct (addLoop_spec _ _ _ _ _ _ _ _ _ Hadd) as (Hainv & Ha).
  destruct (addLoop_succeeded _ _ _ _ _ _ _ _ Hadd) as (Hsnd & _).
  destruct (syncLoop_pass _ _ _ _ _ Hsync)
    as (Hdom' & Hy & Hsr & Hsrf & Hsa & Hsaf & Hsas & _).
  rewrite !addSucceeded_app, !addInvoked_app.
  rewrite Hras, Hsas, Hra, Hsa, !app_nil_r. cbn [app].
  assert (Hdom1 : dom tm1 = dom tm ∩ list_to_set (db.TraderID <$> docs)).
  { apply set_eq. intros id. rewrite elem_of_dom, Hlk1, elem_of_intersection.
    rewrite elem_of_list_to_set, elem_of_dom.
    case_decide; [tauto|]. split; [by intros [? ?] | tauto]. }
  split_and!; try done.
  - by rewrite Hdom', Hdom2, Hdom1.
  - intros id Hid. by apply Hain, addSucceeded_invoked.
  - intros id. rewrite Hainv, list_elem_of_filter, index_currentIDs.
    by rewrite bool_decide_eq_false.
  - rewrite Ha. pose proof (addInvoked_split ac) as Hsplit.
    apply Permutation_length in Hsplit. rewrite length_app in Hsplit. lia.
  - rewrite Hr. f_equal. apply size_of_NoDup_list; [done|].
    intros id. rewrite Hrmem, elem_of_difference, elem_of_list_to_set. tauto.
Qed.

(** X9.  One pass is enough: after a pass that answers with its counts and
    in which no [AddTrader] failed, the live set is the set of identifiers
    of the snapshot, and a second pass over the same snapshot adds nothing,
    removes nothing and syncs one switch per identifier. *)
Theorem handleAdminReload_twice docs (tm : TraderManager)
    tm' calls ok msg added removed synced :
  handleAdminReload validate (docs, None) tm
  = (tm', calls, StatusOK ok msg added removed synced) →
  addFailed calls = [] →
  dom tm' = list_to_set (db.TraderID <$> docs)
  ∧ ∃ tm'' calls' msg',
      handleAdminReload validate (docs, None) tm'
      = (tm'', calls', StatusOK true msg' 0 0 (Z.of_nat (size tm')))
      ∧ removeInvoked calls' = [] ∧ addInvoked calls' = []
      ∧ dom tm'' = dom tm'.
Proof.
  intros Hpass Hnofail.
  destruct (live_set_after_pass _ _ _ _ _ _ _ _ _ Hpass)
    as (Hdom & _ & Hsucc & Hinv & _).
  assert (HD : dom tm' = list_to_set (db.TraderID <$> docs)).
  { rewrite Hdom. apply set_eq. intros id.
    rewrite elem_of_union, elem_of_intersection, !elem_of_list_to_set.
    split.
    - intros [[_ ?]|Hid]; [done|]. by apply Hsucc.
    - intros HD. destruct (decide (id ∈ dom tm)) as [HL|HL]; [by left|].
      right. assert (Hi : id ∈ addInvoked calls) by (by apply Hinv).
      rewrite addInvoked_split, Hnofail, app_nil_r in Hi. done. }
  split; [done|]. by apply converged_pass.
Qed.

(** X10.  A pass over an empty snapshot removes every live trader: the
    fleet is empty afterwards, [RemoveTrader] was called for each live
    identifier, and the counts are 0 added, |L| removed, 0 synced. *)
Theorem handleAdminReload_empty_snapshot (tm : TraderManager) :
  ∃ calls msg,
    handleAdminReload validate ([], None) tm
    = (∅, calls, StatusOK true msg 0 (Z.of_nat (size tm)) 0)
    ∧ ∀ id, id ∈ removeInvoked calls ↔ id ∈ dom tm.
Proof.
  destruct (handleAdminReload validate ([], None) tm) as [[tm' calls] resp] eqn:Hpass.
  destruct (handleAdminReload_inv _ _ _ _ _ _ Hpass)
    as (tm1 & rc & r & tm2 & ac & a & Hrem & Hadd & Hrest).
  destruct (removeLoop_pass _ _ _ _ _ Hrem)
    as (Hrnd & Hrmem & Hrf & Hr & Hra & Hraf & Hras & Hrs & Hlk1).
  assert (Htm1 : tm1 = ∅).
  { apply map_eq. intros id. rewrite Hlk1, lookup_empty.
    rewrite decide_False; [done|]. apply not_elem_of_nil. }
  cbn in Hadd. injection Hadd as <- <- <-. subst tm1.
  destruct Hrest as (sc & y & msg & Hsync & -> & ->).
  unfold GetAllTraders in Hsync. rewrite map_to_list_empty in Hsync.
  cbn in Hsync. injection Hsync as <- <- <-.
  exists (rc ++ [] ++ []), msg. rewrite !app_nil_r. split.
  - do 2 f_equal. rewrite Hr. f_equal.
    rewrite <- size_dom. apply size_of_NoDup_list; [done|].
    intros id. rewrite Hrmem. split; [by intros [? _]|].
    intros ?. split; [done | apply not_elem_of_nil].
  - intros id. rewrite Hrmem. split; [by intros [? _]|].
    intros ?. split; [done | apply not_elem_of_nil].
Qed.

Lemma enabledByID_lookup docs id :
  enabledByID docs !! id
  = db.Enabled <$> last (filter (λ d, db.TraderID d = id) docs).
Proof.
  unfold enabledByID.
  induction docs as [|d docs IH] using rev_ind; [done|].
  rewrite foldl_snoc, filter_app.
  destruct (decide (db.TraderID d = id)) as [<-|Hne].
  - rewrite lookup_insert_eq.
    rewrite (filter_cons_True _ d []) by done.
    rewrite filter_nil. by rewrite last_snoc.
  - rewrite lookup_insert_ne by done.
    rewrite (filter_cons_False _ d []) by done.
    rewrite filter_nil. by rewrite app_nil_r.
Qed.

(** X11.  When the snapshot holds several documents with one identifier,
    the switch synced for it is that of the last of them. *)
Theorem enabledByID_last_wins docs id :
  enabledByID docs !! id
  = db.Enabled <$> last (filter (λ d, db.TraderID d = id) docs).
Proof. apply enabledByID_lookup. Qed.

(** X12.  The counts of a pass are the changes of the live set, whatever
    the snapshot, repeated identifiers and failed calls included: the added
    count is the number of identifiers that are live afterwards and were not
    before, the removed count the number of those that were live before and
    are not afterwards. *)
Theorem handleAdminReload_counts_are_changes docs (tm : TraderManager)
    tm' calls ok msg added removed synced :
  handleAdminReload validate (docs, None) tm
  = (tm', calls, StatusOK ok msg added removed synced) →
  added = Z.of_nat (size (dom tm' ∖ dom tm))
  ∧ removed = Z.of_nat (size (dom tm ∖ dom tm')).
Proof.
  intros Hpass.
  destruct (live_set_after_pass _ _ _ _ _ _ _ _ _ Hpass)
    as (Hdom & Hnd & Hsucc & _ & Ha & Hr).
  split.
  - rewrite Ha. f_equal. apply size_of_NoDup_list; [done|].
    intros id. rewrite Hdom. specialize (Hsucc id).
    rewrite elem_of_difference, elem_of_union, elem_of_intersection,
      !elem_of_list_to_set. tauto.
  - rewrite Hr. do 2 f_equal. apply set_eq. intros id.
    rewrite Hdom. specialize (Hsucc id).
    rewrite !elem_of_difference, elem_of_union, elem_of_intersection,
      !elem_of_list_to_set. tauto.
Qed.

Lemma added_worker docs (tm : TraderManager)
    tm' calls ok msg added removed synced id :
  handleAdminReload validate (docs, None) tm
  = (tm', calls, StatusOK ok msg added removed synced) →
  id ∈ addSucceeded calls →
  tm !! id = None
  ∧ ∃ d h, d ∈ docs ∧ db.TraderID d = id
           ∧ tm' !! id = Some h
           ∧ traderConfig h = db.ToConfig d
           ∧ taskState h = Running
           ∧ enabledByID docs !! id = Some (tradingEnabled h).
Proof.
  intros Hpass Hid.
  destruct (handleAdminReload_inv _ _ _ _ _ _ Hpass)
    as (tm1 & rc & r & tm2 & ac & a & Hrem & Hadd & Hrest).
  destruct a as [a|]; [|by destruct Hrest as (_ & _ & ?)].
  destruct Hrest as (sc & y & msg' & Hsync & -> & Hresp).
  destruct (removeLoop_pass _ _ _ _ _ Hrem)
    as (Hrnd & Hrmem & Hrf & Hr & Hra & Hraf & Hras & Hrs & Hlk1).
  destruct (addLoop_pass _ _ _ _ _ _ _ Hadd) as (Har & Harf & Has & Hain & Hkeep & Hdom2).
  destruct (addLoop_succeeded _ _ _ _ _ _ _ _ Hadd) as (_ & Hall).
  destruct (syncLoop_pass _ _ _ _ _ Hsync)
    as (Hdom' & Hy & Hsr & Hsrf & Hsa & Hsaf & Hsas & Hcfg & Hst & Hflag).
  rewrite !addSucceeded_app, Hras, Hsas, app_nil_r in Hid. cbn [app] in Hid.
  destruct (Hall id Hid) as (Hnone & d & Hd & Hdid & H2).
  assert (HL : id ∉ dom tm).
  { apply addSucceeded_invoked, Hain in Hid. by destruct Hid. }
  split; [by apply not_elem_of_dom|].
  destruct (enabledByID docs !! id) as [v|] eqn:Hen.
  2:{ exfalso. apply eq_None_not_Some in Hen. apply Hen, enabledByID_is_Some.
      apply list_elem_of_fmap. by exists d. }
  specialize (Hcfg id). specialize (Hst id).
  specialize (Hflag id v (ltac:(by rewrite H2)) Hen).
  rewrite H2 in Hcfg, Hst.
  destruct (tm' !! id) as [h|]; [|done].
  exists d, h. cbn in Hcfg, Hst, Hflag.
  split_and!; try done; congruence.
Qed.

(** X13.  A trader added by a pass that answers with its counts was not
    live before; afterwards it is live and running, with the configuration
    converted from a document of the snapshot that bears its identifier, and
    its switch holds the value the snapshot has for that identifier. *)
Theorem handleAdminReload_added_workers docs (tm : TraderManager)
    tm' calls ok msg added removed synced id :
  handleAdminReload validate (docs, None) tm
  = (tm', calls, StatusOK ok msg added removed synced) →
  id ∈ addSucceeded calls →
  tm !! id = None
  ∧ ∃ d h, d ∈ docs ∧ db.TraderID d = id
           ∧ tm' !! id = Some h
           ∧ traderConfig h = db.ToConfig d
           ∧ taskState h = Running
           ∧ enabledByID docs !! id = Some (tradingEnabled h).
Proof. apply added_worker. Qed.

(** With a live trader the handler answers with its counts. *)
Lemma reload_answers docs (tm : TraderManager) :
  tm ≠ ∅ →
  ∃ tm' calls msg added removed synced,
    handleAdminReload validate (docs, None) tm
    = (tm', calls, StatusOK true msg added removed synced).
Proof.
  intros Hne.
  destruct (handleAdminReload validate (docs, None) tm) as [[tm' calls] resp] eqn:Hpass.
  destruct (handleAdminReload_inv _ _ _ _ _ _ Hpass)
    as (tm1 & rc & r & tm2 & ac & a & Hrem & Hadd & Hrest).
  destruct a as [a|].
  - destruct Hrest as (sc & y & msg & _ & _ & ->). by eexists _, _, _, _, _, _.
  - destruct (addLoop_panic_inv _ _ _ _ _ _ _ Hadd) as (Hts & _).
    by apply map_to_list_empty_iff in Hts.
Qed.

(** The adds that fail: the identifier was live, or the check refused a
    document with it, or an earlier document of the same pass had been added
    under it. *)
Lemma addLoop_failed docs ts cur (tm : TraderManager) n tm' calls r :
  addLoop validate docs ts cur tm n = (tm', calls, r) →
  ∀ id, id ∈ addFailed calls →
        is_Some (tm !! id)
        ∨ (∃ d, d ∈ docs ∧ db.TraderID d = id
                ∧ is_Some (validate (db.ToConfig d)))
        ∨ id ∈ addSucceeded calls.
Proof.
  revert tm n tm' calls r.
  induction docs as [|d docs IH]; intros tm n tm' calls r Hloop; cbn in Hloop.
  - injection Hloop as <- <- <-. intros id Hid. by apply not_elem_of_nil in Hid.
  - destruct (index cur (db.TraderID d)) eqn:Hcur; cbn in Hloop.
    { intros id Hid. destruct (IH _ _ _ _ _ Hloop id Hid) as [?|[(d' & ? & ?)|?]];
        [by left | right; left; exists d'; split; [by right | done] | by right; right]. }
    destruct (0 <? Z.of_nat (length ts))%Z.
    2:{ injection Hloop as <- <- <-. intros id Hid. by apply not_elem_of_nil in Hid. }
    unfold AddTrader in Hloop. cbn in Hloop.
    destruct (tm !! db.TraderID d) as [h0|] eqn:Hlook.
    { destruct (addLoop validate docs ts cur tm n) as [[tm1 c1] r1] eqn:Hrec.
      injection Hloop as <- <- <-.
      change (addFailed (CallAddTrader (db.ToConfig d) (Some DuplicateIdentifier) :: c1))
        with (db.TraderID d :: addFailed c1).
      change (addSucceeded (CallAddTrader (db.ToConfig d) (Some DuplicateIdentifier) :: c1))
        with (addSucceeded c1).
      intros id [->|Hid]%elem_of_cons; [left; by rewrite Hlook|].
      destruct (IH _ _ _ _ _ Hrec id Hid) as [?|[(d' & ? & ?)|?]];
        [by left | right; left; exists d'; split; [by right | done] | by right; right]. }
    destruct (validate (db.ToConfig d)) as [e|] eqn:Hval.
    { destruct (addLoop validate docs ts cur tm n) as [[tm1 c1] r1] eqn:Hrec.
      injection Hloop as <- <- <-.
      change (addFailed (CallAddTrader (db.ToConfig d) (Some e) :: c1))
        with (db.TraderID d :: addFailed c1).
      change (addSucceeded (CallAddTrader (db.ToConfig d) (Some e) :: c1))
        with (addSucceeded c1).
      intros id [->|Hid]%elem_of_cons.
      - right; left. exists d. split; [left|]. split; [done|]. by rewrite Hval.
      - destruct (IH _ _ _ _ _ Hrec id Hid) as [?|[(d' & ? & ?)|?]];
          [by left | right; left; exists d'; split; [by right | done] | by right; right]. }
    unfold GetTrader in Hloop. rewrite lookup_insert_eq in Hloop.
    match type of Hloop with
    | context [addLoop validate docs ts cur ?m ?k] =>
        destruct (addLoop validate docs ts cur m k) as [[tm1 c1] r1] eqn:Hrec;
        set (tm0 := m) in *
    end.
    injection Hloop as <- <- <-.
    change (addFailed (CallAddTrader (db.ToConfig d) None
                         :: CallRun (db.TraderID d) :: c1))
      with (addFailed c1).
    change (addSucceeded (CallAddTrader (db.ToConfig d) None
                            :: CallRun (db.TraderID d) :: c1))
      with (db.TraderID d :: addSucceeded c1).
    intros id Hid.
    destruct (decide (id = db.TraderID d)) as [->|Hne]; [right; right; left|].
    destruct (IH _ _ _ _ _ Hrec id Hid) as [Hsome|[(d' & ? & ?)|?]].
    + left. subst tm0. unfold Run, GetID in Hsome. cbn [fst] in Hsome.
      by rewrite lookup_alter_ne, lookup_insert_ne in Hsome.
    + right; left. exists d'. split; [by right | done].
    + right; right. by right.
Qed.

End ReloadMore.


(** * Properties of the document store (package db) *)

Section Store.

Import db.

(** X14.  Converting a configuration to a document and back gives the
    configuration again; converting a document to a configuration and back
    gives a document with the same configuration, the zero [_id] and both
    time stamps set to the time of the conversion. *)
Theorem ToConfig_FromConfig now tc td :
  ToConfig (FromConfig now tc) = tc
  ∧ ToConfig (FromConfig now (ToConfig td)) = ToConfig td
  ∧ (ObjectID (FromConfig now (ToConfig td)),
     CreatedAt (FromConfig now (ToConfig td)),
     UpdatedAt (FromConfig now (ToConfig td)))
    = (NilObjectID, now, now).
Proof. destruct tc. split_and!; reflexivity. Qed.

Lemma eqb_TraderID_true (d : TraderDoc) id :
  String.eqb (TraderID d) id = true ↔ TraderID d = id.
Proof. apply String.eqb_eq. Qed.

Lemma findTrader_Some id coll d :
  findTrader id coll = Some d → d ∈ coll ∧ TraderID d = id.
Proof.
  unfold findTrader. intros H. apply find_some in H as [Hin Heq].
  split; [by apply list_elem_of_In | by apply String.eqb_eq].
Qed.

Lemma findTrader_None id coll :
  findTrader id coll = None ↔ id ∉ TraderID <$> coll.
Proof.
  unfold findTrader. induction coll as [|d coll IH]; cbn.
  - split; [intros _; apply not_elem_of_nil | done].
  - destruct (String.eqb (TraderID d) id) eqn:Heq.
    + apply String.eqb_eq in Heq. split; [done|]. intros Hn. exfalso.
      apply Hn. rewrite Heq. left.
    + apply String.eqb_neq in Heq. rewrite IH, not_elem_of_cons. naive_solver.
Qed.

Lemma findTrader_app id coll1 coll2 :
  findTrader id (coll1 ++ coll2)
  = match findTrader id coll1 with
    | Some d => Some d
    | None => findTrader id coll2
    end.
Proof.
  unfold findTrader. induction coll1 as [|d coll1 IH]; cbn; [done|].
  by destruct (String.eqb (TraderID d) id).
Qed.

(** What [updateOne] does to the collection. *)
Lemma updateOne_spec f id coll :
  (∀ d, TraderID d = id → TraderID (f d) = id) →
  match updateOne f id coll with
  | Some coll' =>
      TraderID <$> coll' = TraderID <$> coll
      ∧ (∃ d, findTrader id coll = Some d ∧ findTrader id coll' = Some (f d))
      ∧ (∀ id', id' ≠ id → findTrader id' coll' = findTrader id' coll)
  | None => findTrader id coll = None
  end.
Proof.
  intros Hf. unfold findTrader.
  induction coll as [|d coll IH]; cbn; [done|].
  destruct (String.eqb (TraderID d) id) eqn:Heq.
  - apply String.eqb_eq in Heq. split_and!.
    + cbn. by rewrite (Hf d Heq), Heq.
    + exists d. split; [done|]. cbn. by rewrite (Hf d Heq), String.eqb_refl.
    + intros id' Hne. cbn. rewrite (Hf d Heq), Heq.
      apply not_eq_sym, String.eqb_neq in Hne. by rewrite Hne.
  - destruct (updateOne f id coll) as [coll'|]; [|done].
    destruct IH as (Hids & (d0 & Hd0 & Hd0') & Hother).
    cbn. rewrite Heq. split_and!.
    + by rewrite Hids.
    + by exists d0.
    + intros id' Hne. destruct (String.eqb (TraderID d) id'); [done|].
      by apply Hother.
Qed.

Lemma applySet_TraderID td d : TraderID (applySet td d) = TraderID td.
Proof. reflexivity. Qed.

Lemma UpsertTrader_nodup conn op updatedAt createdAt oid td coll :
  NoDup (TraderID <$> coll) →
  NoDup (TraderID <$> (UpsertTrader conn op updatedAt createdAt oid td coll).1).
Proof.
  intros Hnd. unfold UpsertTrader.
  destruct conn; [done|]. destruct op; [done|].
  pose proof (updateOne_spec (applySet (touch updatedAt td))
                (TraderID (touch updatedAt td)) coll (λ _ _, eq_refl)) as Hspec.
  destruct (updateOne _ _ coll) as [coll'|]; cbn [fst].
  - destruct Hspec as (-> & _). done.
  - rewrite fmap_app. apply NoDup_app. split_and!; [done | | apply NoDup_singleton].
    intros id Hid [->|[]%not_elem_of_nil]%elem_of_cons.
    by apply findTrader_None in Hspec.
Qed.

(** X15.  [UpsertTrader] keeps the identifiers of the collection pairwise
    distinct, whatever its outcome: it never makes a second document with
    a [trader_id] that is there already. *)
Theorem UpsertTrader_unique conn op updatedAt createdAt oid td coll :
  NoDup (TraderID <$> coll) →
  NoDup (TraderID <$> (UpsertTrader conn op updatedAt createdAt oid td coll).1).
Proof. apply UpsertTrader_nodup. Qed.

Lemma UpsertTrader_lookup updatedAt createdAt oid td coll :
  ∃ coll' d',
    UpsertTrader None None updatedAt createdAt oid td coll = (coll', None)
    ∧ findTrader (TraderID td) coll' = Some d'
    ∧ ToConfig d' = ToConfig td
    ∧ UpdatedAt d' = updatedAt
    ∧ (ObjectID d', CreatedAt d')
      = match findTrader (TraderID td) coll with
        | Some d => (ObjectID d, CreatedAt d)
        | None => (oid, createdAt)
        end
    ∧ (∀ id, id ≠ TraderID td → findTrader id coll' = findTrader id coll).
Proof.
  unfold UpsertTrader.
  pose proof (updateOne_spec (applySet (touch updatedAt td))
                (TraderID (touch updatedAt td)) coll (λ _ _, eq_refl)) as Hspec.
  change (TraderID (touch updatedAt td)) with (TraderID td) in *.
  destruct (updateOne _ _ coll) as [coll'|].
  - destruct Hspec as (_ & (d & Hd & Hd') & Hother).
    exists coll', (applySet (touch updatedAt td) d).
    rewrite Hd. split_and!; done.
  - exists (coll ++ [insertedDoc oid createdAt (touch updatedAt td)]),
      (insertedDoc oid createdAt (touch updatedAt td)).
    rewrite Hspec. split_and!; try done.
    + rewrite findTrader_app, Hspec. unfold findTrader. cbn.
      by rewrite String.eqb_refl.
    + intros id Hne. rewrite findTrader_app.
      destruct (findTrader id coll); [done|]. unfold findTrader. cbn.
      apply not_eq_sym, String.eqb_neq in Hne. by rewrite Hne.
Qed.

(** X16.  After an [UpsertTrader] that succeeds, the first document found
    under the identifier carries the configuration that was given and the
    new update time; it keeps the [_id] and the creation time of the
    document that was there, or takes the new ones if there was none; and
    what is found under any other identifier is as before. *)
Theorem UpsertTrader_found updatedAt createdAt oid td coll :
  ∃ coll' d',
    UpsertTrader None None updatedAt createdAt oid td coll = (coll', None)
    ∧ findTrader (TraderID td) coll' = Some d'
    ∧ ToConfig d' = ToConfig td
    ∧ UpdatedAt d' = updatedAt
    ∧ (ObjectID d', CreatedAt d')
      = match findTrader (TraderID td) coll with
        | Some d => (ObjectID d, CreatedAt d)
        | None => (oid, createdAt)
        end
    ∧ (∀ id, id ≠ TraderID td → findTrader id coll' = findTrader id coll).
Proof. apply UpsertTrader_lookup. Qed.

Lemma deleteOne_spec id coll :
  (∀ id', id' ≠ id → findTrader id' (deleteOne id coll) = findTrader id' coll)
  ∧ (TraderID <$> deleteOne id coll) `sublist_of` (TraderID <$> coll)
  ∧ (NoDup (TraderID <$> coll) → id ∉ TraderID <$> deleteOne id coll).
Proof.
  unfold findTrader. induction coll as [|d coll (IH1 & IH2 & IH3)]; cbn.
  - split_and!; [done | done | intros _; apply not_elem_of_nil].
  - destruct (String.eqb (TraderID d) id) eqn:Heq.
    + apply String.eqb_eq in Heq. split_and!.
      * intros id' Hne. rewrite <- Heq in Hne.
        apply not_eq_sym, String.eqb_neq in Hne. by rewrite Hne.
      * by apply sublist_cons.
      * intros [Hd _]%NoDup_cons. by rewrite <- Heq.
    + cbn. split_and!.
      * intros id' Hne. destruct (String.eqb (TraderID d) id'); [done|].
        by apply IH1.
      * by apply sublist_skip.
      * intros [_ Hnd]%NoDup_cons. apply String.eqb_neq in Heq.
        rewrite not_elem_of_cons. split; [done | by apply IH3].
Qed.

(** X17.  In a collection whose identifiers are pairwise distinct, a
    [DeleteTrader] that succeeds leaves no document under the identifier,
    leaves what is found under any other identifier as it was, and keeps the
    identifiers pairwise distinct. *)
Theorem DeleteTrader_removes id coll :
  NoDup (TraderID <$> coll) →
  ∃ coll',
    DeleteTrader None None id coll = (coll', None)
    ∧ findTrader id coll' = None
    ∧ (∀ id', id' ≠ id → findTrader id' coll' = findTrader id' coll)
    ∧ NoDup (TraderID <$> coll').
Proof.
  intros Hnd. exists (deleteOne id coll).
  destruct (deleteOne_spec id coll) as (H1 & H2 & H3).
  split_and!; try done.
  - by apply findTrader_None, H3.
  - by eapply sublist_NoDup.
Qed.

(** X18.  [Connect] keeps the client it has made: once a call has returned
    a client, every later call returns that client without asking the
    driver, whatever the environment and the driver would say. *)
Theorem Connect_cached mongoURI dial client cli client' :
  Connect mongoURI dial client = (inl cli, client') →
  client' = Some cli
  ∧ ∀ mongoURI' dial', Connect mongoURI' dial' client' = (inl cli, client').
Proof.
  unfold Connect. intros H.
  destruct client as [c|].
  - injection H as <- <-. done.
  - destruct (dial _); try done. injection H as <- <-. done.
Qed.

End Store.


(** * Properties of the start of the process (package main) *)

Section StartupFacts.

Import manager main.

Variable validate : config.TraderConfig → option error.


(** The loop of [main] over the traders, from any trader manager. *)
Lemma addTraders_inl traders cfg (tm0 tm : TraderManager) :
  addTraders validate traders cfg tm0 = inl tm →
  NoDup (config.ID <$> traders)
  ∧ Forall (λ tc, validate tc = None) traders
  ∧ (∀ tc, tc ∈ traders → tm0 !! config.ID tc = None)
  ∧ dom tm = dom tm0 ∪ list_to_set (config.ID <$> traders)
  ∧ (∀ id h, tm0 !! id = Some h → tm !! id = Some h)
  ∧ (∀ tc, tc ∈ traders →
           tm !! config.ID tc
           = Some {| traderConfig := tc; taskState := Created;
                     tradingEnabled := config.Enabled tc |}).
Proof.
  revert tm0. induction traders as [|tc traders IH]; intros tm0 H; cbn in H.
  - injection H as <-. split_and!; try done.
    + constructor.
    + intros tc Htc. by apply not_elem_of_nil in Htc.
    + cbn. by rewrite (right_id_L ∅ (∪)).
    + intros tc Htc. by apply not_elem_of_nil in Htc.
  - unfold AddTrader in H.
    destruct (tm0 !! config.ID tc) as [h0|] eqn:Hlook; [done|].
    destruct (validate tc) as [e|] eqn:Hval; [done|].
    apply IH in H as (Hnd & Hvalid & Hfresh & Hdom & Hkeep & Hall).
    assert (Hnew : ∀ tc', tc' ∈ traders → config.ID tc' ≠ config.ID tc).
    { intros tc' Htc' Heq. specialize (Hfresh tc' Htc').
      by rewrite Heq, lookup_insert_eq in Hfresh. }
    split_and!.
    + rewrite fmap_cons. apply NoDup_cons. split; [|done].
      intros (tc' & Heq & Htc')%list_elem_of_fmap. by apply (Hnew tc' Htc').
    + by constructor.
    + intros tc' [->|Htc']%elem_of_cons; [done|].
      specialize (Hfresh tc' Htc').
      by rewrite lookup_insert_ne in Hfresh by (apply not_eq_sym; by apply Hnew).
    + rewrite Hdom, dom_insert_L, fmap_cons. set_solver.
    + intros id h Hh. apply Hkeep. rewrite lookup_insert_ne; [done|]. congruence.
    + intros tc' [->|Htc']%elem_of_cons; [|by apply Hall].
      apply Hkeep. by rewrite lookup_insert_eq.
Qed.

Lemma addTraders_succeeds traders cfg (tm0 : TraderManager) :
  NoDup (config.ID <$> traders) →
  Forall (λ tc, validate tc = None) traders →
  (∀ tc, tc ∈ traders → tm0 !! config.ID tc = None) →
  ∃ tm, addTraders validate traders cfg tm0 = inl tm.
Proof.
  revert tm0. induction traders as [|tc traders IH]; intros tm0 Hnd Hvalid Hfresh.
  - by eexists.
  - cbn. unfold AddTrader. rewrite (Hfresh tc) by left.
    apply Forall_cons in Hvalid as [-> Hvalid].
    rewrite fmap_cons in Hnd. apply NoDup_cons in Hnd as [Hnew Hnd].
    apply IH; [done | done |].
    intros tc' Htc'. rewrite lookup_insert_ne.
    + apply Hfresh. by right.
    + intros Heq. apply Hnew. rewrite Heq. apply list_elem_of_fmap. by exists tc'.
Qed.

(** X20.  [main] gets past the loop that adds the configured traders
    exactly when their identifiers are pairwise distinct and every one of
    them passes the check of [AddTrader]; the trader manager then holds
    one handle per configured trader, created with that configuration and
    not yet started, and nothing else. *)
Theorem addTraders_registers_all traders cfg :
  ((∃ tm, addTraders validate traders cfg NewTraderManager = inl tm)
   ↔ NoDup (config.ID <$> traders)
     ∧ Forall (λ tc, validate tc = None) traders)
  ∧ ∀ tm, addTraders validate traders cfg NewTraderManager = inl tm →
          dom tm = list_to_set (config.ID <$> traders)
          ∧ ∀ tc, tc ∈ traders →
                  tm !! config.ID tc
                  = Some {| traderConfig := tc; taskState := Created;
                            tradingEnabled := config.Enabled tc |}.
Proof.
  split; [split|].
  - intros [tm H]. apply addTraders_inl in H. by destruct H as (? & ? & _).
  - intros [Hnd Hvalid]. apply addTraders_succeeds; [done | done |].
    intros tc _. apply lookup_empty.
  - intros tm H. apply addTraders_inl in H as (_ & _ & _ & Hdom & _ & Hall).
    split; [|done]. rewrite Hdom. unfold NewTraderManager.
    by rewrite dom_empty_L, (left_id_L ∅ (∪)).
Qed.

End StartupFacts.

(** * Properties of the handlers of the trading switch *)

Section SwitchFacts.

Import manager api.

(** X21.  Without a [trader_id] in the query the first trader the manager
    lists is taken, and it is a live one; the lookup fails exactly when a
    [trader_id] is missing and no trader is live. *)
Theorem getTraderFromQuery_default trader_id (tm : TraderManager) :
  ((∃ err, getTraderFromQuery trader_id tm = inr err)
   ↔ trader_id = "" ∧ tm = ∅)
  ∧ (∀ id, getTraderFromQuery "" tm = inl id → is_Some (tm !! id))
  ∧ (trader_id ≠ "" → getTraderFromQuery trader_id tm = inl trader_id).
Proof.
  unfold getTraderFromQuery, GetTraderIDs, GetAllTraders.
  split_and!.
  - destruct (String.eqb trader_id "") eqn:Hq.
    + apply String.eqb_eq in Hq.
      destruct (map_to_list tm) as [|[id h] l] eqn:Hl; cbn.
      * apply map_to_list_empty_iff in Hl. split; [done | by eexists].
      * split; [by intros [? ?]|]. intros [_ ->].
        by rewrite map_to_list_empty in Hl.
    + apply String.eqb_neq in Hq. cbn. split; [by intros [? ?] | tauto].
  - intros id. cbn.
    destruct (map_to_list tm) as [|[id0 h] l] eqn:Hl; cbn; [done|].
    intros [= <-]. exists h. apply elem_of_map_to_list. rewrite Hl. left.
  - intros Hq. apply String.eqb_neq in Hq. by rewrite Hq.
Qed.

(** X22.  [handleSetTradingEnabled] with a [trader_id] in the body: for a
    trader that is not live it answers 404 and changes nothing; for a live
    one it answers with the identifier and the value, after which
    [handleGetTradingEnabled] reports that value for the identifier, the
    configuration and the task of the trader are what they were, and every
    other trader is untouched. *)
Theorem handleSetTradingEnabled_switches req trader_id (tm : TraderManager) :
  req_TraderID req ≠ "" →
  match tm !! req_TraderID req with
  | None =>
      handleSetTradingEnabled (inl req) trader_id tm
      = (tm, ReplyError StatusNotFound (Error NotFound))
  | Some h =>
      ∃ tm' h',
        handleSetTradingEnabled (inl req) trader_id tm
        = (tm', ReplyTradingEnabled (req_TraderID req) (req_Enabled req))
        ∧ handleGetTradingEnabled (req_TraderID req) tm'
          = ReplyTradingEnabled (req_TraderID req) (req_Enabled req)
        ∧ tm' !! req_TraderID req = Some h'
        ∧ traderConfig h' = traderConfig h
        ∧ taskState h' = taskState h
        ∧ ∀ id, id ≠ req_TraderID req → tm' !! id = tm !! id
  end.
Proof.
  intros Hid. apply String.eqb_neq in Hid.
  unfold handleSetTradingEnabled. rewrite Hid. unfold SetTradingEnabled.
  destruct (tm !! req_TraderID req) as [h|] eqn:Hlook; [|done].
  eexists _, _. split; [reflexivity|].
  unfold handleGetTradingEnabled, getTraderFromQuery, GetTrader.
  rewrite Hid, lookup_insert_eq. split_and!; try done.
  intros id Hne. by rewrite lookup_insert_ne.
Qed.

(** X23.  The two handlers of the trader documents answer 400 and leave the
    collection alone when the [trader_id] is missing, whatever the store
    would do; and whatever they answer, they keep the identifiers of the
    collection pairwise distinct. *)
Theorem admin_handlers_keep_collection_sound body id conn op updatedAt createdAt
    oid coll :
  (db.TraderID body = "" →
   handleAdminUpsertTrader (inl body) conn op updatedAt createdAt oid coll
   = (coll, ReplyError StatusBadRequest "trader_id 必填"))
  ∧ handleAdminDeleteTrader (inl "") conn op coll
    = (coll, ReplyError StatusBadRequest "trader_id 必填")
  ∧ (NoDup (db.TraderID <$> coll) →
     NoDup (db.TraderID
              <$> (handleAdminUpsertTrader (inl body) conn op updatedAt
                     createdAt oid coll).1)
     ∧ NoDup (db.TraderID <$> (handleAdminDeleteTrader (inl id) conn op coll).1)).
Proof.
  split_and!.
  - intros Hid. unfold handleAdminUpsertTrader. by rewrite Hid.
  - reflexivity.
  - intros Hnd. split.
    + unfold handleAdminUpsertTrader.
      destruct (String.eqb (db.TraderID body) ""); [exact Hnd|].
      pose proof (UpsertTrader_nodup conn op updatedAt createdAt oid body coll Hnd) as H.
      destruct (db.UpsertTrader _ _ _ _ _ _ _) as [coll' [e|]]; exact H.
    + unfold handleAdminDeleteTrader.
      destruct (String.eqb id ""); [exact Hnd|].
      unfold db.DeleteTrader. destruct conn; [exact Hnd|].
      destruct op; [exact Hnd|].
      cbn [fst]. destruct (deleteOne_spec id coll) as (_ & Hsub & _).
      by eapply sublist_NoDup.
Qed.

End SwitchFacts.


(** * The store, the start of the process and the reload handler together *)

Section EndToEnd.

Import manager api.

Variable validate : config.TraderConfig → option error.

Lemma NoDup_fmap_eq {A B : Type} (f : A → B) (l : list A) x y :
  NoDup (f <$> l) → x ∈ l → y ∈ l → f x = f y → x = y.
Proof.
  induction l as [|a l IH]; intros Hnd Hx Hy Hf; [by apply not_elem_of_nil in Hx|].
  rewrite fmap_cons in Hnd. apply NoDup_cons in Hnd as [Ha Hnd].
  apply elem_of_cons in Hx as [->|Hx]; apply elem_of_cons in Hy as [->|Hy].
  - done.
  - exfalso. apply Ha. rewrite Hf. apply list_elem_of_fmap. by exists y.
  - exfalso. apply Ha. rewrite <- Hf. apply list_elem_of_fmap. by exists x.
  - by apply IH.
Qed.

(** A pass over a snapshot with pairwise distinct identifiers adds the
    trader of a document that is not live and passes the check. *)
Lemma reload_adds docs (tm : TraderManager) d :
  NoDup (db.TraderID <$> docs) →
  tm ≠ ∅ →
  d ∈ docs →
  tm !! db.TraderID d = None →
  validate (db.ToConfig d) = None →
  ∃ tm' calls msg added removed synced h,
    handleAdminReload validate (docs, None) tm
    = (tm', calls, StatusOK true msg added removed synced)
    ∧ tm' !! db.TraderID d = Some h
    ∧ traderConfig h = db.ToConfig d
    ∧ taskState h = Running
    ∧ tradingEnabled h = db.Enabled d.
Proof.
  intros Hnd Hne Hd Hnone Hval.
  destruct (reload_answers validate docs tm Hne)
    as (tm' & calls & msg & added & removed & synced & Hpass).
  exists tm', calls, msg, added, removed, synced.
  destruct (handleAdminReload_inv _ _ _ _ _ _ Hpass)
    as (tm1 & rc & r & tm2 & ac & a & Hrem & Hadd & Hrest).
  destruct a as [a|]; [|by destruct Hrest as (_ & _ & ?)].
  destruct Hrest as (sc & y & msg' & Hsync & Hcalls & Hresp).
  destruct (removeLoop_pass _ _ _ _ _ Hrem)
    as (Hrnd & Hrmem & Hrf & Hr & Hra & Hraf & Hras & Hrs & Hlk1).
  destruct (addLoop_spec _ _ _ _ _ _ _ _ _ Hadd) as (Hainv & _).
  assert (Hinv : db.TraderID d ∈ addInvoked ac).
  { rewrite Hainv. apply list_elem_of_filter. split.
    - rewrite index_currentIDs. apply bool_decide_eq_false.
      by apply not_elem_of_dom.
    - apply list_elem_of_fmap. by exists d. }
  assert (Hsucc : db.TraderID d ∈ addSucceeded ac).
  { rewrite addInvoked_split in Hinv. apply elem_of_app in Hinv as [?|Hf]; [done|].
    destruct (addLoop_failed validate _ _ _ _ _ _ _ _ Hadd _ Hf)
      as [Hsome|[(d' & Hd' & Hid & Hbad)|?]]; [| |done].
    - rewrite Hlk1 in Hsome. case_decide; [|by destruct Hsome].
      rewrite Hnone in Hsome. by destruct Hsome.
    - assert (d' = d) as -> by (by eapply (NoDup_fmap_eq db.TraderID docs)).
      rewrite Hval in Hbad. by destruct Hbad. }
  assert (Hsucc' : db.TraderID d ∈ addSucceeded calls).
  { rewrite Hcalls, !addSucceeded_app. apply elem_of_app. right.
    apply elem_of_app. by left. }
  destruct (added_worker validate _ _ _ _ _ _ _ _ _ _ Hpass Hsucc')
    as (_ & d' & h & Hd' & Hid & Hh & Hcfg & Hst & Hen).
  assert (d' = d) as -> by (by eapply (NoDup_fmap_eq db.TraderID docs)).
  exists h. split_and!; try done.
  rewrite enabledByID_lookup in Hen.
  destruct (last (filter (λ d0, db.TraderID d0 = db.TraderID d) docs))
    as [d0|] eqn:Hlast; [|done].
  apply last_Some_elem_of, list_elem_of_filter in Hlast as [Hid0 Hd0].
  assert (d0 = d) as -> by (by eapply (NoDup_fmap_eq db.TraderID docs)).
  cbn in Hen. congruence.
Qed.

(** X24.  Saving a trader and reloading starts it: when the identifiers of
    the collection are pairwise distinct, a trader is live, the identifier
    of the document is not, and the check accepts its configuration, then
    after an [UpsertTrader] that succeeds, a pass over what [ListTraders]
    reads answers with its counts, and the trader is live and running with
    the configuration and the switch of the document. *)
Theorem upsert_then_reload_starts_trader updatedAt createdAt oid td coll
    (tm : TraderManager) :
  NoDup (db.TraderID <$> coll) →
  tm ≠ ∅ →
  tm !! db.TraderID td = None →
  validate (db.ToConfig td) = None →
  ∃ tm' calls msg added removed synced h,
    handleAdminReload validate
      (db.ListTraders db.NoFault
         (db.UpsertTrader None None updatedAt createdAt oid td coll).1) tm
    = (tm', calls, StatusOK true msg added removed synced)
    ∧ tm' !! db.TraderID td = Some h
    ∧ traderConfig h = db.ToConfig td
    ∧ taskState h = Running
    ∧ tradingEnabled h = db.Enabled td.
Proof.
  intros Hnd Hne Hnone Hval.
  pose proof (UpsertTrader_nodup None None updatedAt createdAt oid td coll Hnd)
    as Hnd'.
  destruct (UpsertTrader_lookup updatedAt createdAt oid td coll)
    as (coll' & d' & Hup & Hfind & Hcfg & _).
  rewrite Hup in Hnd' |- *. cbn [fst] in Hnd' |- *. cbn [db.ListTraders].
  apply findTrader_Some in Hfind as [Hd' Hid].
  destruct (reload_adds coll' tm d' Hnd' Hne Hd')
    as (tm' & calls & msg & added & removed & synced & h & Hpass & Hh & Hc & Hs & He).
  - by rewrite Hid.
  - by rewrite Hcfg.
  - exists tm', calls, msg, added, removed, synced, h.
    rewrite Hid in Hh. rewrite Hcfg in Hc.
    split_and!; try done.
    rewrite He. change (db.Enabled d') with (config.Enabled (db.ToConfig d')).
    by rewrite Hcfg.
Qed.

(** X25.  On the trader manager that [main] has built, a reload whose fetch
    succeeds ends in the nil pointer panic exactly when no trader was
    configured and the snapshot is not empty: a process started with at
    least one trader answers its first reload with counts, one started
    without any panics on the first reload that finds a document. *)
Theorem reload_after_startup traders cfg (tm : TraderManager) docs :
  main.addTraders validate traders cfg NewTraderManager = inl tm →
  ((handleAdminReload validate (docs, None) tm).2 = NilPointerDereference
   ↔ traders = [] ∧ docs ≠ []).
Proof.
  intros Hstart.
  destruct (addTraders_inl validate _ _ _ _ Hstart) as (_ & _ & _ & Hdom & _).
  unfold NewTraderManager in Hdom.
  rewrite dom_empty_L, (left_id_L ∅ (∪)) in Hdom.
  assert (Hempty : tm = ∅ ↔ traders = []).
  { rewrite <- dom_empty_iff_L, Hdom. split.
    - intros H. destruct traders as [|tc traders]; [done|].
      exfalso. rewrite fmap_cons in H. cbn in H. set_solver.
    - by intros ->. }
  rewrite <- Hempty. split.
  - destruct (handleAdminReload validate (docs, None) tm) as [[tm' calls] resp] eqn:Hpass.
    cbn [snd]. intros ->.
    destruct (handleAdminReload_inv _ _ _ _ _ _ Hpass)
      as (tm1 & rc & r & tm2 & ac & a & Hrem & Hadd & Hrest).
    destruct a as [a|]; [by destruct Hrest as (? & ? & ? & _ & _ & ?)|].
    destruct (addLoop_panic_inv _ _ _ _ _ _ _ _ Hadd) as (Hts & d & Hd & _).
    split; [by apply map_to_list_empty_iff|].
    intros ->. by apply not_elem_of_nil in Hd.
  - intros [-> Hne]. destruct docs as [|d docs]; [done|].
    unfold handleAdminReload, GetAllTraders.
    rewrite map_to_list_empty. cbn [currentIDs foldl].
    rewrite keys_empty. cbn [removeLoop addLoop].
    rewrite index_empty. reflexivity.
Qed.

End EndToEnd.

(** ** The further properties at concrete inputs *)

Section MoreWitnesses.

Import manager api examples.

Lemma handleAdminReload_converged_witness :
  ∃ tm' calls msg,
    handleAdminReload acceptAll (desiredAB, None) liveAB
    = (tm', calls, StatusOK true msg 0 0 2)
    ∧ removeInvoked calls = [] ∧ addInvoked calls = []
    ∧ dom tm' = dom liveAB.
Proof.
  apply (handleAdminReload_converged acceptAll desiredAB liveAB).
  apply (bool_decide_unpack _). vm_compute. exact I.
Defined.

Lemma handleAdminReload_twice_witness :
  let out := handleAdminReload acceptAll (desiredAB, None) liveBC in
  dom out.1.1 = list_to_set (db.TraderID <$> desiredAB)
  ∧ ∃ tm'' calls' msg',
      handleAdminReload acceptAll (desiredAB, None) out.1.1
      = (tm'', calls', StatusOK true msg' 0 0 (Z.of_nat (size out.1.1)))
      ∧ removeInvoked calls' = [] ∧ addInvoked calls' = []
      ∧ dom tm'' = dom out.1.1.
Proof.
  intros out.
  apply (handleAdminReload_twice acceptAll desiredAB liveBC out.1.1 out.1.2
           true "重载完成，新增 1 个，删除 1 个，同步开关 2 个" 1 1 2).
  - vm_compute. reflexivity.
  - vm_compute. reflexivity.
Defined.

Lemma handleAdminReload_counts_are_changes_witness :
  let out := handleAdminReload needsModel (desiredWithFaults, None) liveBC in
  out.2 = StatusOK true "重载完成，新增 1 个，删除 1 个，同步开关 2 个" 1 1 2
  ∧ 1%Z = Z.of_nat (size (dom out.1.1 ∖ dom liveBC))
  ∧ 1%Z = Z.of_nat (size (dom liveBC ∖ dom out.1.1)).
Proof.
  intros out. split; [vm_compute; reflexivity|].
  apply (handleAdminReload_counts_are_changes needsModel desiredWithFaults liveBC
           out.1.1 out.1.2 true "重载完成，新增 1 个，删除 1 个，同步开关 2 个" 1 1 2).
  vm_compute. reflexivity.
Defined.

Lemma handleAdminReload_added_workers_witness :
  let out := handleAdminReload acceptAll (desiredAB, None) liveBC in
  liveBC !! "A" = None
  ∧ ∃ d h, d ∈ desiredAB ∧ db.TraderID d = "A"
           ∧ out.1.1 !! "A" = Some h
           ∧ traderConfig h = db.ToConfig d
           ∧ taskState h = Running
           ∧ enabledByID desiredAB !! "A" = Some (tradingEnabled h).
Proof.
  intros out.
  apply (handleAdminReload_added_workers acceptAll desiredAB liveBC out.1.1 out.1.2
           true "重载完成，新增 1 个，删除 1 个，同步开关 2 个" 1 1 2 "A").
  - vm_compute. reflexivity.
  - apply (bool_decide_unpack _). vm_compute. exact I.
Defined.

Lemma UpsertTrader_unique_witness :
  NoDup (db.TraderID
           <$> (db.UpsertTrader None None 20 20 "oid-2" (doc "B" "deepseek" true)
                  desiredAB).1).
Proof.
  apply (UpsertTrader_unique None None 20 20 "oid-2" (doc "B" "deepseek" true)
           desiredAB).
  apply (bool_decide_unpack _). vm_compute. exact I.
Defined.

Lemma DeleteTrader_removes_witness :
  ∃ coll',
    db.DeleteTrader None None "A" desiredAB = (coll', None)
    ∧ db.findTrader "A" coll' = None
    ∧ (∀ id', id' ≠ "A" → db.findTrader id' coll' = db.findTrader id' desiredAB)
    ∧ NoDup (db.TraderID <$> coll').
Proof.
  apply (DeleteTrader_removes "A" desiredAB).
  apply (bool_decide_unpack _). vm_compute. exact I.
Defined.

Lemma Connect_cached_witness :
  db.Connect "" (λ _, db.Connected) None
  = (inl {| db.clientURI := "mongodb://localhost:27017" |},
     Some {| db.clientURI := "mongodb://localhost:27017" |})
  ∧ db.Connect "mongodb://db.example:27017"
      (λ _, db.ConnectError (errorString "server selection timeout"))
      (Some {| db.clientURI := "mongodb://localhost:27017" |})
    = (inl {| db.clientURI := "mongodb://localhost:27017" |},
       Some {| db.clientURI := "mongodb://localhost:27017" |}).
Proof.
  split; [reflexivity|].
  apply (Connect_cached "" (λ _, db.Connected) None
           {| db.clientURI := "mongodb://localhost:27017" |}
           (Some {| db.clientURI := "mongodb://localhost:27017" |})).
  reflexivity.
Defined.


Lemma handleSetTradingEnabled_switches_witness :
  ∃ tm' h',
    handleSetTradingEnabled
      (inl {| req_TraderID := "B"; req_Enabled := false |}) "" liveBC
    = (tm', ReplyTradingEnabled "B" false)
    ∧ handleGetTradingEnabled "B" tm' = ReplyTradingEnabled "B" false
    ∧ tm' !! "B" = Some h'
    ∧ traderConfig h' = traderConfig (handle "B" "deepseek" true)
    ∧ taskState h' = taskState (handle "B" "deepseek" true)
    ∧ ∀ id, id ≠ "B" → tm' !! id = liveBC !! id.
Proof.
  pose proof (handleSetTradingEnabled_switches
                {| req_TraderID := "B"; req_Enabled := false |} "" liveBC) as H.
  assert (Hlook : liveBC !! "B" = Some (handle "B" "deepseek" true))
    by (vm_compute; reflexivity).
  cbn [req_TraderID req_Enabled] in H. rewrite Hlook in H.
  apply H. discriminate.
Defined.

Lemma upsert_then_reload_starts_trader_witness :
  ∃ tm' calls msg added removed synced h,
    handleAdminReload acceptAll
      (db.ListTraders db.NoFault
         (db.UpsertTrader None None 20 20 "oid-3" (doc "C" "qwen" false)
            desiredAB).1) liveAB
    = (tm', calls, StatusOK true msg added removed synced)
    ∧ tm' !! "C" = Some h
    ∧ traderConfig h = db.ToConfig (doc "C" "qwen" false)
    ∧ taskState h = Running
    ∧ tradingEnabled h = false.
Proof.
  apply (upsert_then_reload_starts_trader acceptAll 20 20 "oid-3"
           (doc "C" "qwen" false) desiredAB liveAB).
  - apply (bool_decide_unpack _). vm_compute. exact I.
  - intros H. apply (f_equal (λ m : TraderManager, m !! "A")) in H.
    vm_compute in H. discriminate.
  - vm_compute. reflexivity.
  - reflexivity.
Defined.

Lemma reload_after_startup_witness :
  (handleAdminReload acceptAll (desiredAB, None) startedA).2 = NilPointerDereference
  ↔ [db.ToConfig (doc "A" "deepseek" true)] = [] ∧ desiredAB ≠ [].
Proof.
  apply (reload_after_startup acceptAll [db.ToConfig (doc "A" "deepseek" true)]
           defaultGlobalConfig startedA desiredAB).
  vm_compute. reflexivity.
Defined.

End MoreWitnesses.
